(** * EchoStream: the playback synchronisation engine of [server.py]

    A shallow embedding of the handlers of [server.py] and of the store
    initialisation of [redis_config.py], with the properties of the
    synchronisation engine stated over them. *)

From Stdlib Require Import ZArith Bool List Ascii String.
From Stdlib Require Import PrimFloat FloatOps SpecFloat FloatAxioms.
From stdpp Require Import gmap strings list.

Open Scope string_scope.

(** ** Python values *)

(** Python's [float] is an IEEE 754 binary64 number, which is what the
    primitive type [float] is; [+], [-] and the comparisons are the
    primitive, correctly rounded operations. *)
Abbreviation pyfloat := PrimFloat.float.

(** The exceptions that the modelled code can meet. *)
Inductive exn : Type :=
| RedisError
| TypeError
| OverflowError.

Definition is_RedisError (e : exn) : bool :=
  match e with RedisError => true | _ => false end.

Definition any_Exception (e : exn) : bool := true.

(** A value in the decoded JSON payload of an event: [null], a boolean, an
    integer or a float. Strings, lists and objects are left out of the
    model. *)
Inductive jval : Type :=
| JNull
| JBool (b : bool)
| JInt (z : Z)
| JFloat (x : pyfloat).

(** Outcome of an expression that may raise. *)
Inductive result (A : Type) : Type :=
| Ok (a : A)
| Raise (e : exn).
Arguments Ok {A} a.
Arguments Raise {A} e.

(** [float(z)] for a Python [int]: the nearest binary64 number, ties to
    even; an [int] beyond the range of binary64 raises [OverflowError]. *)
Definition float_of_int (z : Z) : result pyfloat :=
  let f := SF2Prim (binary_normalize prec emax z 0 false) in
  if PrimFloat.is_infinity f then Raise OverflowError else Ok f.

(** Python's [float(v)]. *)
Definition py_float (v : jval) : result pyfloat :=
  match v with
  | JFloat x => Ok x
  | JInt z => float_of_int z
  | JBool b => Ok (if b then 1%float else 0%float)
  | JNull => Raise TypeError
  end.

(** Python's [max(a, b)]: the second argument only when it is greater. *)
Definition py_max (a b : pyfloat) : pyfloat :=
  if PrimFloat.ltb a b then b else a.

(** ** The Redis store *)

(** The hash kept under [STATE_KEY]. Redis holds every value as a string and
    a field that was never set is absent. The fields [current_time] and
    [last_update_timestamp] are only ever written as [str(x)] for a float
    [x] (the literal ["0.0"] is [str(0.0)]) and only ever read back through
    [float(...)], which inverts [str] on floats, so the record keeps the
    float [x] for the decimal string [str(x)]. *)
Record state_hash : Type := mk_hash {
  video_file_url : option string;
  is_playing : option string;
  current_time : option pyfloat;
  last_update_timestamp : option pyfloat;
  controller_sid : option string }.

(** The messages published on [SYNC_CHANNEL]: [{"event": .., "data": ..}]. *)
Inductive event : Type :=
| video_loaded (url sid : string)
| controller_change (c : string)
| sync_play (time : pyfloat) (sid : string)
| sync_pause (time : pyfloat) (sid : string)
| sync_seek (time : pyfloat) (sid : string).

(** A value of the dict that [get_current_state] returns. [PStrOfFloat x]
    is the string [str(x)], as read from one of the two time fields. *)
Inductive pyval : Type :=
| PStr (s : string)
| PStrOfFloat (x : pyfloat)
| PBool (b : bool)
| PFloat (x : pyfloat).

(** Everything the handlers act on: the Redis server ([up] tells whether it
    answers; every command raises [RedisError] when it does not), the hash
    under [STATE_KEY], the set under [USER_SET_KEY], the messages published
    on [SYNC_CHANNEL] (oldest first), and the [sync_state] messages emitted
    to single clients (oldest first). *)
Record world : Type := mk_world {
  up : bool;
  state : state_hash;
  users : gset string;
  channel : list event;
  outbox : list (string * gmap string pyval) }.

Definition set_state (h : state_hash) (w : world) : world :=
  mk_world (up w) h (users w) (channel w) (outbox w).

Definition set_users (u : gset string) (w : world) : world :=
  mk_world (up w) (state w) u (channel w) (outbox w).

Definition set_channel (c : list event) (w : world) : world :=
  mk_world (up w) (state w) (users w) c (outbox w).

Definition set_outbox (o : list (string * gmap string pyval)) (w : world) : world :=
  mk_world (up w) (state w) (users w) (channel w) o.

Definition set_up (b : bool) (w : world) : world :=
  mk_world b (state w) (users w) (channel w) (outbox w).

(** ** A state and exception monad for the handlers *)

Definition M (A : Type) : Type := world -> result A * world.

Definition ret {A} (a : A) : M A := fun w => (Ok a, w).

Definition raise {A} (e : exn) : M A := fun w => (Raise e, w).

Definition bind {A B} (m : M A) (k : A -> M B) : M B :=
  fun w => match m w with
           | (Ok a, w') => k a w'
           | (Raise e, w') => (Raise e, w')
           end.

(** [try: m except e: h], for the exceptions that [catches] selects. *)
Definition try_except {A} (m : M A) (catches : exn -> bool) (h : M A) : M A :=
  fun w => match m w with
           | (Ok a, w') => (Ok a, w')
           | (Raise e, w') => if catches e then h w' else (Raise e, w')
           end.

(** A pure expression that may raise. *)
Definition lift {A} (r : result A) : M A := fun w => (r, w).

Declare Scope M_scope.
Delimit Scope M_scope with M.
Notation "x <- m ;; k" := (bind m (fun x => k))
  (at level 20, m at level 99, k at level 200) : M_scope.
Notation "m ;; k" := (bind m (fun _ => k))
  (at level 100, k at level 200, right associativity) : M_scope.
Open Scope M_scope.

(** ** Redis commands *)

(** Every command is one round trip to the server and is atomic there.
    Whether the server answers is the flag [up], which the handlers do
    not change: a server that goes away between two calls of one handler
    is not modelled, only one that is away for a whole request. *)
Definition redis {A} (f : world -> A * world) : M A :=
  fun w => if up w then (let (a, w') := f w in (Ok a, w')) else (Raise RedisError, w).

Definition r_hgetall : M state_hash :=
  redis (fun w => (state w, w)).

Definition r_hget_controller_sid : M (option string) :=
  redis (fun w => (controller_sid (state w), w)).

(** One [HSET] of a field of the hash under [STATE_KEY]. *)
Inductive hset_cmd : Type :=
| hset_video_file_url (v : string)
| hset_is_playing (v : string)
| hset_current_time (x : pyfloat)
| hset_last_update_timestamp (x : pyfloat)
| hset_controller_sid (v : string).

Definition apply_hset (h : state_hash) (c : hset_cmd) : state_hash :=
  match c with
  | hset_video_file_url v =>
      mk_hash (Some v) (is_playing h) (current_time h) (last_update_timestamp h) (controller_sid h)
  | hset_is_playing v =>
      mk_hash (video_file_url h) (Some v) (current_time h) (last_update_timestamp h) (controller_sid h)
  | hset_current_time x =>
      mk_hash (video_file_url h) (is_playing h) (Some x) (last_update_timestamp h) (controller_sid h)
  | hset_last_update_timestamp x =>
      mk_hash (video_file_url h) (is_playing h) (current_time h) (Some x) (controller_sid h)
  | hset_controller_sid v =>
      mk_hash (video_file_url h) (is_playing h) (current_time h) (last_update_timestamp h) (Some v)
  end.

Definition r_hset (c : hset_cmd) : M unit :=
  redis (fun w => (tt, set_state (apply_hset (state w) c) w)).

(** A command buffered in a pipeline. *)
Inductive pipe_cmd : Type :=
| p_delete_state
| p_delete_users
| p_hset (c : hset_cmd).

Definition no_hash : state_hash := mk_hash None None None None None.

Definition apply_pipe_cmd (w : world) (c : pipe_cmd) : world :=
  match c with
  | p_delete_state => set_state no_hash w
  | p_delete_users => set_users ∅ w
  | p_hset c => set_state (apply_hset (state w) c) w
  end.

(** [pipe.execute()]: the buffered commands are sent as one [MULTI]/[EXEC]
    transaction and applied in order, with no other command in between. *)
Definition pipe_execute (cmds : list pipe_cmd) : M unit :=
  redis (fun w => (tt, fold_left apply_pipe_cmd cmds w)).

Definition r_sadd (sid : string) : M unit :=
  redis (fun w => (tt, set_users ({[sid]} ∪ users w) w)).

Definition r_srem (sid : string) : M unit :=
  redis (fun w => (tt, set_users (users w ∖ {[sid]}) w)).

(** [SRANDMEMBER]: some member of the set, [None] for the empty set. The
    random draw is the argument [rnd]. *)
Definition r_srandmember (rnd : nat) : M (option string) :=
  redis (fun w => (let l := elements (users w) in l !! (rnd mod length l), w)).

Definition r_publish (e : event) : M unit :=
  redis (fun w => (tt, set_channel (channel w ++ [e]) w)).

(** [emit('sync_state', d, to=sid)]: Socket.IO, not Redis. *)
Definition emit_sync_state (d : gmap string pyval) (sid : string) : M unit :=
  fun w => (Ok tt, set_outbox (outbox w ++ [(sid, d)]) w).

(** ** [redis_config.py] *)

(** One pipeline: both keys are deleted and the five default fields are
    set (one [HSET] with a mapping). *)
Definition initialize_redis_state : M unit :=
  try_except
    (pipe_execute
       [ p_delete_state;
         p_delete_users;
         p_hset (hset_video_file_url EmptyString);
         p_hset (hset_is_playing "0");
         p_hset (hset_current_time 0%float);
         p_hset (hset_last_update_timestamp 0%float);
         p_hset (hset_controller_sid EmptyString) ])
    is_RedisError
    (ret tt).

(** ** [server.py]: utility functions *)

Definition ALLOWED_EXTENSIONS : list string := ["mp4"; "webm"; "ogg"].

(** [s.rsplit('.', 1)[1]] when ['.' in s], [None] otherwise. *)
Fixpoint after_last_dot (s : string) : option string :=
  match s with
  | EmptyString => None
  | String c s' =>
      match after_last_dot s' with
      | Some e => Some e
      | None => if Ascii.eqb c "."%char then Some s' else None
      end
  end.

(** [str.lower()] on the ASCII letters, which are the only characters
    that lower to a letter of an allowed extension. *)
Definition lower_ascii (c : Ascii.ascii) : Ascii.ascii :=
  let n := Ascii.nat_of_ascii c in
  if (65 <=? n)%nat && (n <=? 90)%nat then Ascii.ascii_of_nat (n + 32) else c.

Fixpoint lower (s : string) : string :=
  match s with
  | EmptyString => EmptyString
  | String c s' => String (lower_ascii c) (lower s')
  end.

Definition allowed_file (filename : string) : bool :=
  match after_last_dot filename with
  | Some ext => bool_decide (lower ext ∈ ALLOWED_EXTENSIONS)
  | None => false
  end.

(** [{k: v for k, v in state_raw.items()}]: the fields that are present. *)
Definition dict_of_hash (h : state_hash) : gmap string pyval :=
  list_to_map
    (omap id
       [ (fun v => ("video_file_url", PStr v)) <$> video_file_url h;
         (fun v => ("is_playing", PStr v)) <$> is_playing h;
         (fun x => ("current_time", PStrOfFloat x)) <$> current_time h;
         (fun x => ("last_update_timestamp", PStrOfFloat x)) <$> last_update_timestamp h;
         (fun v => ("controller_sid", PStr v)) <$> controller_sid h ]).

(** [now] is the value of [time.time()]. The fields are read off
    [state_raw], of which [state] is a copy. *)
Definition get_current_state (now : pyfloat) : M (gmap string pyval) :=
  try_except
    (state_raw <- r_hgetall;;
     let state := dict_of_hash state_raw in
     let is_playing := match is_playing state_raw with
                       | Some v => String.eqb v "1"
                       | None => false
                       end in
     let base_time := default 0%float (current_time state_raw) in
     let last_update := default 0%float (last_update_timestamp state_raw) in
     let authoritative_time :=
       if is_playing
       then (let elapsed := (now - last_update)%float in (base_time + elapsed)%float)
       else base_time in
     let state := <["current_time" := PFloat authoritative_time]> state in
     let state := <["is_playing" := PBool is_playing]> state in
     let state := <["controller_sid" := PStr (default EmptyString (controller_sid state_raw))]> state in
     let state := <["video_file_url" := PStr (default EmptyString (video_file_url state_raw))]> state in
     ret state)
    is_RedisError
    (ret ∅).

(** [if new_controller_sid:] in Python: neither [None] nor empty. *)
Definition truthy (s : option string) : bool :=
  match s with
  | Some v => negb (String.eqb v EmptyString)
  | None => false
  end.

Definition elect_new_controller (rnd : nat) : M (option string) :=
  try_except
    (new_controller_sid <- r_srandmember rnd;;
     (if truthy new_controller_sid
      then (r_hset (hset_controller_sid (default EmptyString new_controller_sid));;
            r_publish (controller_change (default EmptyString new_controller_sid)))
      else (r_hset (hset_controller_sid EmptyString);;
            r_publish (controller_change EmptyString)));;
     ret new_controller_sid)
    is_RedisError
    (ret None).

Definition is_controller (sid : string) : M bool :=
  try_except
    (c <- r_hget_controller_sid;;
     ret (bool_decide (c = Some sid)))
    is_RedisError
    (ret false).

(** ** [server.py]: the upload route *)

(** What [upload_video] reads from the request: the file name of the part
    [file] ([None] when the part is missing), the URL that [url_for] builds
    for the saved file, and the form field [sid]. Storing the file is the
    business of Flask and is not modelled. *)
Record upload_request : Type := mk_upload {
  file : option string;
  video_url : string;
  form_sid : option string }.

Inductive response : Type :=
| NoContent_204
| Error_400 (error : string)
| Error_500 (error : string).

Definition upload_video (req : upload_request) (now : pyfloat) : M response :=
  match file req with
  | None => ret (Error_400 "No file part")
  | Some filename =>
      if String.eqb filename EmptyString then ret (Error_400 "No selected file")
      else if allowed_file filename then
        let uploader_sid := form_sid req in
        if negb (truthy uploader_sid) then ret (Error_400 "No client SID")
        else
          let uploader_sid := default EmptyString uploader_sid in
          try_except
            (pipe_execute
               [ p_hset (hset_video_file_url (video_url req));
                 p_hset (hset_is_playing "0");
                 p_hset (hset_current_time 0%float);
                 p_hset (hset_last_update_timestamp now);
                 p_hset (hset_controller_sid uploader_sid) ];;
             r_publish (video_loaded (video_url req) uploader_sid);;
             r_publish (controller_change uploader_sid);;
             ret NoContent_204)
            any_Exception
            (ret (Error_500 "Server error"))
      else ret (Error_400 "File type not allowed")
  end.

(** ** [server.py]: Socket.IO event handlers *)

(** In every handler [sid] is [request.sid], the session that sent the
    event, [now] the value of [time.time()], and [data] the payload of the
    event, a JSON object. What a handler prints is not modelled. *)

Definition handle_connect (sid : string) (now : pyfloat) : M unit :=
  try_except
    (r_sadd sid;;
     st <- get_current_state now;;
     emit_sync_state st sid)
    any_Exception
    (ret tt).

Definition handle_disconnect (sid : string) (rnd : nat) : M unit :=
  try_except
    (r_srem sid;;
     c <- is_controller sid;;
     if c then (elect_new_controller rnd;; ret tt) else ret tt)
    any_Exception
    (ret tt).

Definition handle_request_sync (sid : string) (now : pyfloat) : M unit :=
  st <- get_current_state now;;
  emit_sync_state st sid.

(** [data.get('time', 0.0)] *)
Definition get_time (data : gmap string jval) : jval :=
  default (JFloat 0%float) (data !! "time").

Definition handle_play (sid : string) (data : gmap string jval) (now : pyfloat) : M unit :=
  c <- is_controller sid;;
  if negb c then ret tt
  else
    current_time <- lift (py_float (get_time data));;
    pipe_execute
      [ p_hset (hset_is_playing "1");
        p_hset (hset_current_time current_time);
        p_hset (hset_last_update_timestamp now) ];;
    r_publish (sync_play current_time sid).

Definition handle_pause (sid : string) (data : gmap string jval) (now : pyfloat) : M unit :=
  c <- is_controller sid;;
  if negb c then ret tt
  else
    current_time <- lift (py_float (get_time data));;
    pipe_execute
      [ p_hset (hset_is_playing "0");
        p_hset (hset_current_time current_time);
        p_hset (hset_last_update_timestamp now) ];;
    r_publish (sync_pause current_time sid).

Definition handle_seek (sid : string) (data : gmap string jval) (now : pyfloat) : M unit :=
  c <- is_controller sid;;
  if negb c then ret tt
  else
    current_time <- lift (py_float (get_time data));;
    pipe_execute
      [ p_hset (hset_current_time current_time);
        p_hset (hset_last_update_timestamp now) ];;
    r_publish (sync_seek current_time sid).

(** The server once [main] has run [initialize_redis_state] on a Redis
    that answers: nothing published, nothing emitted yet. *)
Definition fresh_redis : world := mk_world true no_hash ∅ [] [].

Definition started : world := snd (initialize_redis_state fresh_redis).

(** ** The playback state read off the store *)

(** [baseTime], [lastUpdateAt] and [isPlaying] as [get_current_state]
    reads them: an absent field counts as [0.0], resp. as not playing. *)
Definition base_time (h : state_hash) : pyfloat := default 0%float (current_time h).

Definition last_update (h : state_hash) : pyfloat := default 0%float (last_update_timestamp h).

Definition playing (h : state_hash) : bool :=
  match is_playing h with
  | Some v => String.eqb v "1"
  | None => false
  end.

(** The position that a snapshot reports under the key [current_time]. *)
Definition position (d : gmap string pyval) : option pyfloat :=
  match d !! "current_time" with
  | Some (PFloat x) => Some x
  | _ => None
  end.

(** The position that a snapshot read at [now] delivers, if it delivers a
    snapshot at all. *)
Definition reported_position (now : pyfloat) (w : world) : option pyfloat :=
  match fst (get_current_state now w) with
  | Ok d => position d
  | Raise _ => None
  end.

(** The reconciler in the words of the specification: [baseTime] if not
    playing, [baseTime + max(0, now - lastUpdateAt)] if playing. *)
Definition reconcile_spec (h : state_hash) (now : pyfloat) : pyfloat :=
  if playing h
  then (base_time h + py_max 0 (now - last_update h))%float
  else base_time h.

(** The default playback state in the words of the specification: empty
    [videoUrl], not playing, position [0], empty [controllerId]. *)
Definition default_playback_state : gmap string pyval :=
  <["video_file_url" := PStr EmptyString]>
    (<["is_playing" := PBool false]>
       (<["current_time" := PFloat 0%float]>
          (<["controller_sid" := PStr EmptyString]> ∅))).

(** A binary64 number, as the specification of the primitive floats has
    it, is not negative: it compares as at least [+0.0]. *)
Definition sf_nonneg (x : spec_float) : bool := SFleb (S754_zero false) x.

(** [baseTime >= 0]. *)
Definition base_time_nonneg (w : world) : Prop :=
  exists x, current_time (state w) = Some x /\ PrimFloat.leb 0%float x = true.

(** ** Requests *)

Inductive command : Type := Play | Pause | Seek.

Definition handle (c : command) : string -> gmap string jval -> pyfloat -> M unit :=
  match c with
  | Play => handle_play
  | Pause => handle_pause
  | Seek => handle_seek
  end.

(** What can reach the server: an upload, a Socket.IO event of a session,
    or the Redis server going away or coming back. *)
Inductive request : Type :=
| Upload (req : upload_request) (now : pyfloat)
| Connect (sid : string) (now : pyfloat)
| Disconnect (sid : string) (rnd : nat)
| RequestSync (sid : string) (now : pyfloat)
| Command (c : command) (sid : string) (data : gmap string jval) (now : pyfloat)
| Outage (redis_up : bool).

(** The world after a request was served from start to end. *)
Definition serve (w : world) (r : request) : world :=
  match r with
  | Upload req now => snd (upload_video req now w)
  | Connect sid now => snd (handle_connect sid now w)
  | Disconnect sid rnd => snd (handle_disconnect sid rnd w)
  | RequestSync sid now => snd (handle_request_sync sid now w)
  | Command c sid data now => snd (handle c sid data now w)
  | Outage b => set_up b w
  end.

Definition serve_all (rs : list request) (w : world) : world := fold_left serve rs w.

(** The time of a command that the controller issues is not negative:
    whatever [float(...)] makes of the payload is at least [0.0]. The
    world is the one in which the request arrives. *)
Definition time_nonneg (w : world) (r : request) : Prop :=
  match r with
  | Command _ sid data _ =>
      controller_sid (state w) = Some sid ->
      forall t, py_float (get_time data) = Ok t -> PrimFloat.leb 0%float t = true
  | _ => True
  end.

Fixpoint times_nonneg (rs : list request) (w : world) : Prop :=
  match rs with
  | [] => True
  | r :: rs' => time_nonneg w r /\ times_nonneg rs' (serve w r)
  end.

(** ** A command handler as a sequence of store operations *)

(** The handlers of [play], [pause] and [seek] talk to Redis three times:
    [is_controller] reads [controller_sid], [pipe.execute()] writes, and
    [r.publish] publishes. Each of them is one round trip to the server,
    and between two of them the handlers of other sessions can run (the
    server runs one green thread per request and switches on socket I/O,
    and several server processes may share one Redis). A handler stands
    before one of these operations (before the last one with its local
    [current_time]), or has returned. *)
Inductive pc : Type :=
| at_check
| at_write
| at_publish (current_time : pyfloat)
| returned.

Definition writes (c : command) (current_time now : pyfloat) : list pipe_cmd :=
  match c with
  | Play => [ p_hset (hset_is_playing "1");
              p_hset (hset_current_time current_time);
              p_hset (hset_last_update_timestamp now) ]
  | Pause => [ p_hset (hset_is_playing "0");
               p_hset (hset_current_time current_time);
               p_hset (hset_last_update_timestamp now) ]
  | Seek => [ p_hset (hset_current_time current_time);
              p_hset (hset_last_update_timestamp now) ]
  end.

Definition sync_event (c : command) (current_time : pyfloat) (sid : string) : event :=
  match c with
  | Play => sync_play current_time sid
  | Pause => sync_pause current_time sid
  | Seek => sync_seek current_time sid
  end.

(** The next store operation of the handler of [c], with what the handler
    computes on its own before it. *)
Definition step (c : command) (sid : string) (data : gmap string jval) (now : pyfloat)
    (p : pc) : M pc :=
  match p with
  | at_check =>
      ok <- is_controller sid;;
      ret (if negb ok then returned else at_write)
  | at_write =>
      current_time <- lift (py_float (get_time data));;
      pipe_execute (writes c current_time now);;
      ret (at_publish current_time)
  | at_publish current_time =>
      r_publish (sync_event c current_time sid);;
      ret returned
  | returned => ret returned
  end.

(** A schedule gives the turns: the handler does its next operation, or
    another request is served meanwhile. *)
Inductive turn : Type :=
| Own
| Other (r : request).

Definition take_turn (c : command) (sid : string) (data : gmap string jval) (now : pyfloat)
    (cfg : pc * world) (t : turn) : pc * world :=
  match t with
  | Own =>
      match step c sid data now (fst cfg) (snd cfg) with
      | (Ok p, w) => (p, w)
      | (Raise _, w) => (returned, w)
      end
  | Other r => (fst cfg, serve (snd cfg) r)
  end.

Definition run_schedule (c : command) (sid : string) (data : gmap string jval) (now : pyfloat)
    (sched : list turn) (cfg : pc * world) : pc * world :=
  fold_left (take_turn c sid data now) sched cfg.

(** The requests that a schedule serves besides the handler. *)
Definition others_of (sched : list turn) : list request :=
  omap (fun t => match t with Other r => Some r | Own => None end) sched.

(** Check and write as one atomic unit: whenever the handler is about to
    write, the session that issued the command is the controller. *)
Fixpoint writes_with_authority (c : command) (sid : string) (data : gmap string jval)
    (now : pyfloat) (sched : list turn) (cfg : pc * world) : Prop :=
  match sched with
  | [] => True
  | t :: sched' =>
      (t = Own -> fst cfg = at_write -> controller_sid (state (snd cfg)) = Some sid)
      /\ writes_with_authority c sid data now sched' (take_turn c sid data now cfg t)
  end.

(** ** The effect of a command *)

(** The hash after the writes of a command that was let through. *)
Definition written (c : command) (t now : pyfloat) (h : state_hash) : state_hash :=
  mk_hash (video_file_url h)
    (match c with Play => Some "1" | Pause => Some "0" | Seek => is_playing h end)
    (Some t) (Some now) (controller_sid h).

(** ** Sample worlds and payloads *)

(** The store of scenario 1: [U1] uploaded [a.mp4]; [U1] and [U2] are
    connected. *)
Definition paused_world : world :=
  mk_world true
    (mk_hash (Some "a.mp4") (Some "0") (Some 0%float) (Some 100%float) (Some "U1"))
    ({[ "U1" ]} ∪ {[ "U2" ]}) [video_loaded "a.mp4" "U1"; controller_change "U1"] [].

Definition time_payload (x : pyfloat) : gmap string jval := {[ "time" := JFloat x ]}.

(** A store that plays since [100.0], from position [10.0]. *)
Definition playing_world : world :=
  mk_world true
    (mk_hash (Some "a.mp4") (Some "1") (Some 10%float) (Some 100%float) (Some "U1"))
    {[ "U1" ]} [] [].

(** The upload of scenario 1, and an upload of another session. *)
Definition upload_a : upload_request :=
  mk_upload (Some "a.mp4") "/static/videos/a.mp4" (Some "U1").

Definition upload_b : upload_request :=
  mk_upload (Some "b.mp4") "/static/videos/b.mp4" (Some "U2").

(** [U1], [U2] and [U3] are connected and [U1] controls. *)
Definition three_users : world :=
  mk_world true
    (mk_hash (Some "a.mp4") (Some "0") (Some 0%float) (Some 100%float) (Some "U1"))
    ({[ "U1" ]} ∪ {[ "U2" ]} ∪ {[ "U3" ]}) [] [].

(** [U1] sends [play(30.0)]; after the handler has checked [U1] and before
    it writes, [U2] uploads [b.mp4] and so becomes the controller. *)
Definition upload_between : list turn :=
  [ Own; Other (Upload upload_b 150%float); Own; Own ].

(** ** [server.py]: [main] *)

(** [r.delete(STATE_KEY)] and [r.delete(USER_SET_KEY)], one command each. *)
Definition r_delete_state : M unit :=
  redis (fun w => (tt, set_state no_hash w)).

Definition r_delete_users : M unit :=
  redis (fun w => (tt, set_users ∅ w)).

(** [main]: the store is initialised, the server serves what reaches it
    ([rs], one request after the other; an exception of a handler stays
    inside the server), and when the server stops the [finally] block
    deletes both keys. The directory of the uploads and the background
    listener are not modelled. *)
Definition main (rs : list request) : M unit :=
  initialize_redis_state;;
  (fun w => (Ok tt, serve_all rs w));;
  r_delete_state;;
  r_delete_users.

(** ** Predicates on file names, requests and states *)

(** ['.' in s] *)
Fixpoint has_dot (s : string) : bool :=
  match s with
  | EmptyString => false
  | String c s' => Ascii.eqb c "."%char || has_dot s'
  end.

(** An upload that passes the checks of [upload_video]: a file part with
    a name that is not empty and that [allowed_file] accepts, and a form
    field [sid] that is not empty. *)
Definition well_formed_upload (req : upload_request) : Prop :=
  exists name sid,
    file req = Some name /\ name <> EmptyString /\ allowed_file name = true
    /\ form_sid req = Some sid /\ sid <> EmptyString.


(** A request that is not an upload and, when it is a command or a
    disconnect, comes from a session whose id is not empty. *)
Definition no_upload_named (r : request) : Prop :=
  match r with
  | Upload _ _ => False
  | Disconnect sid _ => sid <> EmptyString
  | Command _ sid _ _ => sid <> EmptyString
  | _ => True
  end.

(** A request that is neither an upload nor a disconnect. *)
Definition keeps_controller (r : request) : Prop :=
  match r with
  | Upload _ _ => False
  | Disconnect _ _ => False
  | _ => True
  end.

(** All five fields are present and [is_playing] is ["0"] or ["1"]. *)
Definition complete (h : state_hash) : Prop :=
  is_Some (video_file_url h)
  /\ (is_playing h = Some "0" \/ is_playing h = Some "1")
  /\ is_Some (current_time h)
  /\ is_Some (last_update_timestamp h)
  /\ is_Some (controller_sid h).

(** The keys of the dict that a snapshot read returns while the store
    answers. *)
Definition snapshot_keys (h : state_hash) : gset string :=
  {[ "video_file_url"; "is_playing"; "current_time"; "controller_sid" ]}
  ∪ match last_update_timestamp h with
    | Some _ => {[ "last_update_timestamp" ]}
    | None => ∅
    end.

(** ** The effects of a request

    A summary, used in the proofs, of what serving a request can do to the
    world; [serve_effect] shows that [serve] does nothing else. *)

(** The world after a request, case by case: nothing but possibly the
    availability of the store; one message emitted to a client; an
    accepted upload; a connect; a disconnect without or with election;
    an accepted command. *)
Inductive effect (w : world) : request -> world -> Prop :=
| effect_none r b :
    effect w r (mk_world b (state w) (users w) (channel w) (outbox w))
| effect_emit r sid d :
    effect w r (set_outbox (outbox w ++ [(sid, d)]) w)
| effect_upload req now sid :
    up w = true ->
    form_sid req = Some sid ->
    effect w (Upload req now)
      (mk_world true
         (mk_hash (Some (video_url req)) (Some "0") (Some 0%float) (Some now) (Some sid))
         (users w)
         (channel w ++ [video_loaded (video_url req) sid; controller_change sid])
         (outbox w))
| effect_connect sid now d :
    up w = true ->
    effect w (Connect sid now)
      (mk_world true (state w) ({[ sid ]} ∪ users w) (channel w) (outbox w ++ [(sid, d)]))
| effect_leave sid rnd :
    up w = true ->
    controller_sid (state w) <> Some sid ->
    effect w (Disconnect sid rnd) (set_users (users w ∖ {[ sid ]}) w)
| effect_elect sid rnd c :
    up w = true ->
    controller_sid (state w) = Some sid ->
    effect w (Disconnect sid rnd)
      (mk_world true (apply_hset (state w) (hset_controller_sid c))
         (users w ∖ {[ sid ]}) (channel w ++ [controller_change c]) (outbox w))
| effect_command c sid data now t :
    up w = true ->
    controller_sid (state w) = Some sid ->
    py_float (get_time data) = Ok t ->
    effect w (Command c sid data now)
      (mk_world true (written c t now (state w)) (users w)
         (channel w ++ [sync_event c t sid]) (outbox w)).

(** * Properties *)

(** ** Sanity checks of the embedding *)

Example float_of_int_5 : float_of_int 5 = Ok 5%float.
Proof. reflexivity. Qed.

Example float_of_int_neg : float_of_int (-3) = Ok (-3)%float.
Proof. reflexivity. Qed.

Example float_of_int_round : float_of_int (2^53 + 1) = Ok 9007199254740992%float.
Proof. reflexivity. Qed.

Example float_of_int_big : float_of_int (2^1024) = Raise OverflowError.
Proof. vm_compute. reflexivity. Qed.

Example started_state :
  state started = mk_hash (Some EmptyString) (Some "0") (Some 0%float) (Some 0%float) (Some EmptyString).
Proof. reflexivity. Qed.

Example allowed_file_upper : allowed_file "clip.final.MP4" = true.
Proof. reflexivity. Qed.

Example allowed_file_no_dot : allowed_file "mp4" = false.
Proof. reflexivity. Qed.

(** ** Running the monad *)

Ltac unfold_M :=
  unfold handle_connect, handle_disconnect, handle_request_sync,
    elect_new_controller, is_controller, get_current_state, emit_sync_state,
    initialize_redis_state, r_hgetall, r_hget_controller_sid, r_hset, r_sadd,
    r_srem, r_srandmember, r_publish, pipe_execute, redis, try_except, bind,
    lift, ret, raise in *.

Lemma is_controller_run sid w :
  is_controller sid w
  = (Ok (up w && bool_decide (controller_sid (state w) = Some sid)), w).
Proof. unfold_M. destruct (up w); reflexivity. Qed.

Lemma get_current_state_up now w :
  up w = true ->
  exists d,
    get_current_state now w = (Ok d, w)
    /\ position d
       = Some (if playing (state w)
               then (base_time (state w) + (now - last_update (state w)))%float
               else base_time (state w)).
Proof.
  intros Hup. unfold_M. rewrite Hup. eexists. split; [reflexivity |].
  unfold position. rewrite lookup_insert_ne by discriminate.
  rewrite lookup_insert_ne by discriminate.
  rewrite lookup_insert_ne by discriminate.
  rewrite lookup_insert_eq. reflexivity.
Qed.

Lemma get_current_state_down now w :
  up w = false -> get_current_state now w = (Ok ∅, w).
Proof. intros Hup. unfold_M. rewrite Hup. reflexivity. Qed.

Lemma Ok_inj {A} (a b : A) : Ok a = Ok b -> a = b.
Proof.
  intros H.
  exact (f_equal (fun r => match r with Ok x => x | Raise _ => a end) H).
Qed.

(** Primitive floats that a comparison tells apart are different. *)
Lemma float_neq_by_ltb (x y z : pyfloat) :
  PrimFloat.ltb x z = negb (PrimFloat.ltb y z) -> x <> y.
Proof. intros H ->. destruct (PrimFloat.ltb y z); discriminate. Qed.

(** ** Floats that are not negative

    The sum of two binary64 numbers that are not negative is not negative
    (it may be [+inf]): rounding does not change the sign. *)

Lemma shr_1_nonneg mrs : (0 <= shr_m mrs)%Z -> (0 <= shr_m (shr_1 mrs))%Z.
Proof.
  destruct mrs as [m r s]. simpl.
  destruct m as [| p | p]; [| destruct p | destruct p]; simpl; lia.
Qed.

Lemma iter_shr_1_nonneg p : forall mrs,
  (0 <= shr_m mrs)%Z -> (0 <= shr_m (SpecFloat.iter_pos shr_1 p mrs))%Z.
Proof.
  induction p as [p IH | p IH |]; intros mrs H; simpl.
  - apply IH, IH, shr_1_nonneg, H.
  - apply IH, IH, H.
  - apply shr_1_nonneg, H.
Qed.

Lemma shr_fexp_nonneg m e l :
  (0 <= m)%Z -> (0 <= shr_m (fst (shr_fexp prec emax m e l)))%Z.
Proof.
  intros H. unfold shr_fexp, shr.
  assert (H0 : (0 <= shr_m (shr_record_of_loc m l))%Z).
  { destruct l as [| []]; exact H. }
  destruct (fexp prec emax (Zdigits2 m + e) - e)%Z; simpl; try exact H0.
  apply iter_shr_1_nonneg, H0.
Qed.

Lemma round_nearest_even_nonneg m l :
  (0 <= m)%Z -> (0 <= round_nearest_even m l)%Z.
Proof.
  intros H. destruct l as [| []]; simpl; try lia.
  destruct (Z.even m); lia.
Qed.

Lemma binary_round_aux_nonneg mx ex lx :
  (0 <= mx)%Z -> sf_nonneg (binary_round_aux prec emax false mx ex lx) = true.
Proof.
  intros H. unfold binary_round_aux.
  pose proof (shr_fexp_nonneg mx ex lx H) as H1.
  destruct (shr_fexp prec emax mx ex lx) as [mrs' e']. simpl in H1.
  pose proof (shr_fexp_nonneg _ e' loc_Exact
                (round_nearest_even_nonneg _ (loc_of_shr_record mrs') H1)) as H2.
  destruct (shr_fexp prec emax _ e' loc_Exact) as [mrs'' e'']. simpl in H2.
  destruct (shr_m mrs'') as [| p | p]; [reflexivity | | lia].
  destruct (e'' <=? emax - prec)%Z; reflexivity.
Qed.

Lemma binary_normalize_nonneg m e :
  (0 <= m)%Z -> sf_nonneg (binary_normalize prec emax m e false) = true.
Proof.
  intros H. destruct m as [| p | p]; [reflexivity | | lia].
  unfold binary_normalize, binary_round.
  destruct (shl_align p e _) as [mz ez].
  apply binary_round_aux_nonneg. lia.
Qed.

Lemma SFadd_nonneg x y :
  sf_nonneg x = true -> sf_nonneg y = true -> sf_nonneg (SFadd prec emax x y) = true.
Proof.
  destruct x as [sx | sx | | sx mx ex], y as [sy | sy | | sy my ey];
    try destruct sx; try destruct sy; try discriminate; intros _ _; try reflexivity.
  unfold SFadd. apply binary_normalize_nonneg. simpl. lia.
Qed.

Lemma float_add_nonneg (a b : pyfloat) :
  (0 <=? a)%float = true -> (0 <=? b)%float = true -> (0 <=? a + b)%float = true.
Proof.
  rewrite !leb_spec, add_spec. apply SFadd_nonneg.
Qed.
(** ** The clock reconciler *)

Example reconcile_scenario_2 :
  reported_position 103%float
    (mk_world true
       (mk_hash (Some "a.mp4") (Some "1") (Some 12.5%float) (Some 100%float) (Some "U1"))
       {[ "U1" ]} [] [])
  = Some 15.5%float.
Proof. vm_compute. reflexivity. Qed.

(** C1, as stated, fails: a read at [now = 50.0] of a state that plays
    since [lastUpdateAt = 100.0] from [baseTime = 10.0] reports
    [10.0 + (50.0 - 100.0) = -40.0]: not [baseTime], as the clamp of the
    specification would give, and negative although [baseTime >= 0]. *)
Lemma C1_no_clamp :
  reported_position 50%float playing_world = Some (-40)%float
  /\ reconcile_spec (state playing_world) 50%float = 10%float
  /\ reported_position 50%float playing_world
     <> Some (reconcile_spec (state playing_world) 50%float)
  /\ PrimFloat.leb 0%float (base_time (state playing_world)) = true
  /\ PrimFloat.ltb (-40)%float 0%float = true.
Proof.
  assert (H1 : reported_position 50%float playing_world = Some (-40)%float)
    by (vm_compute; reflexivity).
  assert (H2 : reconcile_spec (state playing_world) 50%float = 10%float)
    by (vm_compute; reflexivity).
  repeat split; try assumption; try reflexivity.
  rewrite H1, H2. intros H. apply (inj Some) in H.
  revert H. apply (float_neq_by_ltb _ _ 0%float). reflexivity.
Qed.

(** C1, amended: while the store answers, the position that a snapshot
    read at [now] reports is [baseTime] when [isPlaying] is false and
    [baseTime + (now - lastUpdateAt)] when it is true. Nothing is clamped:
    the value is the [baseTime + max(0, now - lastUpdateAt)] of the
    specification whenever [now - lastUpdateAt] is positive, and it is not
    negative whenever [baseTime >= 0] and, if the state is playing,
    [now - lastUpdateAt >= 0]. *)
Theorem C1_reconciled_position (w : world) (now : pyfloat) :
  up w = true ->
  (playing (state w) = false ->
     reported_position now w = Some (base_time (state w)))
  /\ (playing (state w) = true ->
     reported_position now w
     = Some (base_time (state w) + (now - last_update (state w)))%float)
  /\ (PrimFloat.ltb 0%float (now - last_update (state w))%float = true ->
     reported_position now w = Some (reconcile_spec (state w) now))
  /\ (PrimFloat.leb 0%float (base_time (state w)) = true ->
     playing (state w) = false
     \/ PrimFloat.leb 0%float (now - last_update (state w))%float = true ->
     exists x, reported_position now w = Some x /\ PrimFloat.leb 0%float x = true).
Proof.
  intros Hup.
  destruct (get_current_state_up now w Hup) as (d & Hd & Hpos).
  unfold reported_position. rewrite Hd. simpl. rewrite Hpos.
  unfold reconcile_spec, py_max.
  repeat split.
  - intros ->. reflexivity.
  - intros ->. reflexivity.
  - intros ->. reflexivity.
  - intros Hb He. eexists. split; [reflexivity |].
    destruct (playing (state w)).
    + destruct He as [He | He]; [discriminate |].
      apply float_add_nonneg; assumption.
    + exact Hb.
Qed.

Lemma C1_reconciled_position_witness :
  up playing_world = true
  /\ reported_position 103%float playing_world = Some 13%float.
Proof.
  split; [reflexivity |].
  apply (C1_reconciled_position playing_world 103%float); reflexivity.
Defined.

(** ** Commands: [play], [pause], [seek] *)

Lemma handle_refused c sid data now w :
  up w && bool_decide (controller_sid (state w) = Some sid) = false ->
  handle c sid data now w = (Ok tt, w).
Proof.
  intros H. destruct c; simpl;
    unfold handle_play, handle_pause, handle_seek, bind;
    rewrite is_controller_run, H; reflexivity.
Qed.

Lemma handle_applied c sid data now w t :
  up w = true ->
  controller_sid (state w) = Some sid ->
  py_float (get_time data) = Ok t ->
  handle c sid data now w
  = (Ok tt,
     mk_world true (written c t now (state w)) (users w)
       (channel w ++ [sync_event c t sid]) (outbox w)).
Proof.
  intros Hup Hc Ht. destruct c; simpl;
    unfold handle_play, handle_pause, handle_seek, bind;
    rewrite is_controller_run, Hup, Hc, bool_decide_eq_true_2 by reflexivity;
    simpl; unfold lift; rewrite Ht;
    unfold pipe_execute, r_publish, redis, bind, ret;
    destruct w; simpl in *; subst; reflexivity.
Qed.

Lemma handle_bad_time c sid data now w e :
  up w = true ->
  controller_sid (state w) = Some sid ->
  py_float (get_time data) = Raise e ->
  handle c sid data now w = (Raise e, w).
Proof.
  intros Hup Hc Ht. destruct c; simpl;
    unfold handle_play, handle_pause, handle_seek, bind;
    rewrite is_controller_run, Hup, Hc, bool_decide_eq_true_2 by reflexivity;
    simpl; unfold lift; rewrite Ht; reflexivity.
Qed.

(** C2: a play, pause or seek command of a session that is not the
    current controller returns normally and leaves the whole world as it
    was: no field of the playback state changes, nothing is published on
    the sync channel, and nothing is emitted to any client. *)
Theorem C2_non_controller_discarded
    (c : command) (sid : string) (data : gmap string jval) (now : pyfloat) (w : world) :
  controller_sid (state w) <> Some sid ->
  handle c sid data now w = (Ok tt, w)
  /\ state (snd (handle c sid data now w)) = state w
  /\ channel (snd (handle c sid data now w)) = channel w
  /\ outbox (snd (handle c sid data now w)) = outbox w.
Proof.
  intros Hne.
  assert (H : handle c sid data now w = (Ok tt, w)).
  { apply handle_refused. rewrite bool_decide_eq_false_2 by assumption.
    apply andb_false_r. }
  rewrite H. repeat split.
Qed.

Lemma C2_non_controller_discarded_witness :
  handle Pause "U2" (time_payload 5%float) 105%float paused_world = (Ok tt, paused_world).
Proof.
  apply (C2_non_controller_discarded Pause "U2" (time_payload 5%float) 105%float paused_world).
  discriminate.
Defined.

(** C8: a seek of the current controller, with a payload that [float]
    turns into [t], sets [baseTime] to [t] and [lastUpdateAt] to [now] and
    leaves [isPlaying], [videoUrl] and [controllerId] as they were, so a
    playing state stays playing and a paused one paused. *)
Theorem C8_seek_frame
    (sid : string) (data : gmap string jval) (now t : pyfloat) (w : world) :
  up w = true ->
  controller_sid (state w) = Some sid ->
  py_float (get_time data) = Ok t ->
  let w' := snd (handle_seek sid data now w) in
  fst (handle_seek sid data now w) = Ok tt
  /\ current_time (state w') = Some t
  /\ last_update_timestamp (state w') = Some now
  /\ is_playing (state w') = is_playing (state w)
  /\ playing (state w') = playing (state w)
  /\ video_file_url (state w') = video_file_url (state w)
  /\ controller_sid (state w') = controller_sid (state w).
Proof.
  intros Hup Hc Ht.
  pose proof (handle_applied Seek sid data now w t Hup Hc Ht) as H.
  simpl in H. rewrite H. simpl. repeat split.
Qed.

Lemma C8_seek_frame_witness :
  current_time (state (snd (handle_seek "U1" (time_payload 42.5%float) 107%float playing_world)))
  = Some 42.5%float
  /\ playing (state (snd (handle_seek "U1" (time_payload 42.5%float) 107%float playing_world)))
     = playing (state playing_world).
Proof.
  pose proof (C8_seek_frame "U1" (time_payload 42.5%float) 107%float 42.5%float playing_world
                eq_refl eq_refl eq_refl) as H.
  simpl in H. split; apply H.
Defined.

(** C9, as stated, fails: a second [seek(5.0)], three seconds after the
    first, moves [lastUpdateAt] from [100.0] to [103.0], so the state
    after two seeks is not the state after one. *)
Lemma C9_second_seek_changes_state :
  let once := serve playing_world (Command Seek "U1" (time_payload 5%float) 100%float) in
  let twice := serve once (Command Seek "U1" (time_payload 5%float) 103%float) in
  last_update_timestamp (state once) = Some 100%float
  /\ last_update_timestamp (state twice) = Some 103%float
  /\ state twice <> state once.
Proof.
  simpl. repeat split.
  intros H. apply (f_equal last_update) in H. vm_compute in H.
  revert H. apply (float_neq_by_ltb _ _ 101%float). reflexivity.
Qed.

(** C9, amended: a second [seek(t)] of the current controller, with no
    other request in between, leaves [videoUrl], [isPlaying], [baseTime]
    and [controllerId] as the first seek left them; [lastUpdateAt] is
    written again, with the clock reading of the second seek, and a second
    [sync_seek] is published. The state is the same as after one seek
    when both read the same clock value. *)
Theorem C9_seek_twice
    (sid : string) (data : gmap string jval) (now1 now2 t : pyfloat) (w : world) :
  up w = true ->
  controller_sid (state w) = Some sid ->
  py_float (get_time data) = Ok t ->
  let once := serve w (Command Seek sid data now1) in
  let twice := serve once (Command Seek sid data now2) in
  video_file_url (state twice) = video_file_url (state once)
  /\ is_playing (state twice) = is_playing (state once)
  /\ current_time (state twice) = current_time (state once)
  /\ controller_sid (state twice) = controller_sid (state once)
  /\ last_update_timestamp (state once) = Some now1
  /\ last_update_timestamp (state twice) = Some now2
  /\ channel twice = (channel once ++ [sync_seek t sid])%list
  /\ (now2 = now1 -> state twice = state once).
Proof.
  intros Hup Hc Ht. cbv zeta. unfold serve.
  rewrite (handle_applied Seek sid data now1 w t Hup Hc Ht).
  cbn [snd].
  match goal with
  | |- context [handle Seek sid data now2 ?w1] =>
      rewrite (handle_applied Seek sid data now2 w1 t eq_refl Hc Ht)
  end.
  cbn. repeat split. intros ->. reflexivity.
Qed.

Lemma C9_seek_twice_witness :
  let once := serve playing_world (Command Seek "U1" (time_payload 5%float) 100%float) in
  let twice := serve once (Command Seek "U1" (time_payload 5%float) 103%float) in
  current_time (state twice) = current_time (state once)
  /\ last_update_timestamp (state twice) = Some 103%float.
Proof.
  pose proof (C9_seek_twice "U1" (time_payload 5%float) 100%float 103%float 5%float
                playing_world eq_refl eq_refl eq_refl) as H.
  simpl in H. simpl. split; apply H.
Defined.

(** C10: a play, pause or seek command of the current controller whose
    payload has no field [time] (the empty payload among them) is not
    rejected: the handler returns normally, [baseTime] becomes [0.0],
    [lastUpdateAt] becomes [now], [isPlaying] is switched on by play and
    off by pause (seek keeps it), and the event is published with time
    [0.0]. *)
Theorem C10_missing_time_is_zero
    (c : command) (sid : string) (data : gmap string jval) (now : pyfloat) (w : world) :
  up w = true ->
  controller_sid (state w) = Some sid ->
  data !! "time" = None ->
  let w' := snd (handle c sid data now w) in
  fst (handle c sid data now w) = Ok tt
  /\ current_time (state w') = Some 0%float
  /\ last_update_timestamp (state w') = Some now
  /\ is_playing (state w')
     = match c with Play => Some "1" | Pause => Some "0" | Seek => is_playing (state w) end
  /\ channel w' = (channel w ++ [sync_event c 0%float sid])%list.
Proof.
  intros Hup Hc Hd.
  assert (Ht : py_float (get_time data) = Ok 0%float).
  { unfold get_time. rewrite Hd. reflexivity. }
  rewrite (handle_applied c sid data now w _ Hup Hc Ht). simpl.
  repeat split.
Qed.

Lemma C10_missing_time_is_zero_witness :
  let w' := snd (handle_play "U1" ∅ 120%float paused_world) in
  fst (handle_play "U1" ∅ 120%float paused_world) = Ok tt
  /\ current_time (state w') = Some 0%float
  /\ is_playing (state w') = Some "1".
Proof.
  pose proof (C10_missing_time_is_zero Play "U1" ∅ 120%float paused_world
                eq_refl eq_refl eq_refl) as H.
  simpl in H. simpl. repeat split; apply H.
Defined.

(** ** Upload *)

Example upload_scenario_1 :
  let w := serve started (Upload upload_a 100%float) in
  state w = mk_hash (Some "/static/videos/a.mp4") (Some "0") (Some 0%float)
              (Some 100%float) (Some "U1")
  /\ channel w = [video_loaded "/static/videos/a.mp4" "U1"; controller_change "U1"].
Proof. vm_compute. split; reflexivity. Qed.

Example upload_bad_extension :
  upload_video (mk_upload (Some "a.exe") "/static/videos/a.exe" (Some "U1")) 100%float started
  = (Ok (Error_400 "File type not allowed"), started).
Proof. vm_compute. reflexivity. Qed.

(** C4: an upload that succeeds (answer 204) for the resource [url] and
    the issuer [sid] leaves the playback state with [videoUrl = url],
    [isPlaying] false, [baseTime = 0], [lastUpdateAt = now] and
    [controllerId = sid], whatever it was before, and publishes exactly
    two events: [video_loaded{url, sid}] and then
    [controller_change{sid}]. *)
Theorem C4_upload_resets (req : upload_request) (now : pyfloat) (w : world) :
  fst (upload_video req now w) = Ok NoContent_204 ->
  let w' := snd (upload_video req now w) in
  exists sid,
    form_sid req = Some sid
    /\ state w'
       = mk_hash (Some (video_url req)) (Some "0") (Some 0%float) (Some now) (Some sid)
    /\ playing (state w') = false
    /\ channel w'
       = (channel w ++ [video_loaded (video_url req) sid; controller_change sid])%list.
Proof.
  unfold upload_video.
  destruct (file req) as [filename |]; [| discriminate].
  destruct (String.eqb filename EmptyString); [discriminate |].
  destruct (allowed_file filename); [| discriminate].
  destruct (form_sid req) as [sid |]; [| discriminate].
  simpl. destruct (String.eqb sid EmptyString); [discriminate |].
  unfold_M. destruct w as [u h us ch ob]. destruct u; simpl; [| discriminate].
  intros _. exists sid. rewrite <- app_assoc. repeat split.
Qed.

Lemma C4_upload_resets_witness :
  exists sid,
    form_sid upload_b = Some sid
    /\ state (snd (upload_video upload_b 150%float playing_world))
       = mk_hash (Some (video_url upload_b)) (Some "0") (Some 0%float) (Some 150%float) (Some sid)
    /\ playing (state (snd (upload_video upload_b 150%float playing_world))) = false
    /\ channel (snd (upload_video upload_b 150%float playing_world))
       = (channel playing_world
            ++ [video_loaded (video_url upload_b) sid; controller_change sid])%list.
Proof.
  apply (C4_upload_resets upload_b 150%float playing_world). reflexivity.
Defined.

(** ** Disconnect and election *)

Lemma srandmember_member (rnd : nat) (us : gset string) :
  match elements us !! (rnd mod length (elements us)) with
  | Some s => s ∈ us
  | None => us = ∅
  end.
Proof.
  destruct (elements us !! (rnd mod length (elements us))) as [s |] eqn:E.
  - apply elem_of_elements. apply list_elem_of_lookup. eauto.
  - apply lookup_ge_None in E.
    destruct (elements us) as [| x l] eqn:El.
    + apply leibniz_equiv. apply elements_empty_iff. rewrite El. reflexivity.
    + pose proof (Nat.mod_upper_bound rnd (length (x :: l))) as Hlt.
      simpl in *. lia.
Qed.

Example disconnect_scenario_3 :
  let w := serve three_users (Disconnect "U1" 7) in
  controller_sid (state w) = Some "U2"
  /\ channel w = [controller_change "U2"].
Proof. vm_compute. split; reflexivity. Qed.

(** C5: when the session that is the controller disconnects (and the
    store answers), the election that follows writes a [controllerId]
    that is the empty string, when no session remains, or else a member of
    the set of connected sessions as it is at the election, the leaving
    session removed; a [controller_change] event with that value is
    published, and nothing else of the playback state changes. *)
Theorem C5_election_picks_member (sid : string) (rnd : nat) (w : world) :
  up w = true ->
  controller_sid (state w) = Some sid ->
  let w' := snd (handle_disconnect sid rnd w) in
  users w' = users w ∖ {[ sid ]}
  /\ exists c,
       controller_sid (state w') = Some c
       /\ ((c = EmptyString /\ users w' = ∅) \/ c ∈ users w')
       /\ channel w' = (channel w ++ [controller_change c])%list
       /\ video_file_url (state w') = video_file_url (state w)
       /\ is_playing (state w') = is_playing (state w)
       /\ current_time (state w') = current_time (state w)
       /\ last_update_timestamp (state w') = last_update_timestamp (state w).
Proof.
  intros Hup Hc. destruct w as [u h us ch ob]. simpl in *. subst u.
  unfold_M. simpl. rewrite Hc, bool_decide_eq_true_2 by reflexivity. simpl.
  pose proof (srandmember_member rnd (us ∖ {[ sid ]})) as Hm.
  destruct (elements (us ∖ {[ sid ]}) !! (rnd mod length (elements (us ∖ {[ sid ]}))))
    as [s |]; simpl.
  - destruct (String.eqb_spec s EmptyString) as [-> | Hs]; simpl;
      (split; [reflexivity |]); eexists; repeat split; auto.
  - split; [reflexivity |]. eexists. repeat split; auto.
Qed.

Lemma C5_election_picks_member_witness :
  exists c,
    controller_sid (state (snd (handle_disconnect "U1" 7 three_users))) = Some c
    /\ c ∈ users three_users ∖ {[ "U1" ]}.
Proof.
  destruct (C5_election_picks_member "U1" 7 three_users eq_refl eq_refl)
    as (Hu & c & Hc & Hmem & _).
  exists c. split; [exact Hc |].
  rewrite <- Hu. destruct Hmem as [[_ He] | Hin]; [| exact Hin].
  exfalso. rewrite Hu in He.
  assert (Hin : "U2" ∈ users three_users ∖ {[ "U1" ]}) by (simpl; set_solver).
  rewrite He in Hin. set_solver.
Defined.

(** ** Snapshots while the store is away *)

(** The snapshot of the store as [initialize_redis_state] leaves it is the
    default playback state, with the raw [last_update_timestamp]. *)
Example snapshot_of_started (now : pyfloat) :
  get_current_state now started
  = (Ok (<["last_update_timestamp" := PStrOfFloat 0%float]> default_playback_state), started).
Proof. vm_compute. reflexivity. Qed.

(** C6, as stated, fails: with the store away, a snapshot read returns the
    empty dict. It has no position and no other field, so it is neither
    the default playback state nor the snapshot of the initialised
    store. *)
Lemma C6_empty_dict_not_default :
  let down := set_up false started in
  fst (get_current_state 5%float down) = Ok ∅
  /\ reported_position 5%float down = None
  /\ reported_position 5%float started = Some 0%float
  /\ fst (get_current_state 5%float down) <> Ok default_playback_state
  /\ fst (get_current_state 5%float down) <> fst (get_current_state 5%float started).
Proof.
  assert (Hd : fst (get_current_state 5%float (set_up false started)) = Ok ∅)
    by (vm_compute; reflexivity).
  cbv zeta. rewrite Hd. repeat split.
  - intros H.
    apply (f_equal (fun r => match r with Ok d => d !! "is_playing" | Raise _ => None end)) in H.
    vm_compute in H. discriminate.
  - intros H.
    apply (f_equal (fun r => match r with Ok d => d !! "is_playing" | Raise _ => None end)) in H.
    vm_compute in H. discriminate.
Qed.

(** C6, amended: with the store away, a snapshot read does not propagate
    the failure; it returns the empty dict, in which none of [videoUrl],
    [isPlaying], the position and [controllerId] is present, and changes
    nothing. *)
Theorem C6_unavailable_store_gives_empty_dict (now : pyfloat) (w : world) :
  up w = false ->
  get_current_state now w = (Ok ∅, w)
  /\ reported_position now w = None
  /\ forall d key, fst (get_current_state now w) = Ok d -> d !! key = None.
Proof.
  intros Hup. pose proof (get_current_state_down now w Hup) as H.
  unfold reported_position. rewrite H. repeat split.
  intros d key [= <-]. apply lookup_empty.
Qed.

Lemma C6_unavailable_store_gives_empty_dict_witness :
  get_current_state 5%float (set_up false started) = (Ok ∅, set_up false started).
Proof.
  apply (C6_unavailable_store_gives_empty_dict 5%float (set_up false started)).
  reflexivity.
Defined.

(** ** [baseTime] along the requests *)

Lemma get_current_state_world now w : snd (get_current_state now w) = w.
Proof. unfold_M. destruct (up w); reflexivity. Qed.

Lemma connect_state sid now w : state (snd (handle_connect sid now w)) = state w.
Proof. unfold_M. destruct w as [u h us ch ob]. destruct u; reflexivity. Qed.

Lemma request_sync_state sid now w : state (snd (handle_request_sync sid now w)) = state w.
Proof. unfold_M. destruct w as [u h us ch ob]. destruct u; reflexivity. Qed.

Lemma disconnect_current_time sid rnd w :
  current_time (state (snd (handle_disconnect sid rnd w))) = current_time (state w).
Proof.
  unfold_M. destruct w as [u h us ch ob]. destruct u; simpl; [| reflexivity].
  destruct (bool_decide (controller_sid h = Some sid)); simpl; [| reflexivity].
  destruct (elements (us ∖ {[ sid ]}) !! (rnd mod length (elements (us ∖ {[ sid ]}))))
    as [s |]; simpl; [| reflexivity].
  destruct (String.eqb s EmptyString); reflexivity.
Qed.

Lemma upload_current_time req now w :
  current_time (state (snd (upload_video req now w))) = current_time (state w)
  \/ current_time (state (snd (upload_video req now w))) = Some 0%float.
Proof.
  unfold upload_video.
  destruct (file req) as [filename |]; [| now left].
  destruct (String.eqb filename EmptyString); [now left |].
  destruct (allowed_file filename); [| now left].
  destruct (negb (truthy (form_sid req))); [now left |].
  unfold_M. destruct w as [u h us ch ob]. destruct u; simpl; [now right | now left].
Qed.

Lemma command_current_time c sid data now w :
  current_time (state (snd (handle c sid data now w))) = current_time (state w)
  \/ exists t,
       controller_sid (state w) = Some sid
       /\ py_float (get_time data) = Ok t
       /\ current_time (state (snd (handle c sid data now w))) = Some t.
Proof.
  destruct (up w && bool_decide (controller_sid (state w) = Some sid)) eqn:E.
  - apply andb_true_iff in E as [Hup Hc]. apply bool_decide_eq_true_1 in Hc.
    destruct (py_float (get_time data)) as [t | e] eqn:Ht.
    + right. exists t. split; [exact Hc |]. split; [reflexivity |].
      rewrite (handle_applied c sid data now w t Hup Hc Ht). reflexivity.
    + left. rewrite (handle_bad_time c sid data now w e Hup Hc Ht). reflexivity.
  - left. rewrite (handle_refused c sid data now w E). reflexivity.
Qed.

Lemma serve_keeps_base_time_nonneg (r : request) (w : world) :
  time_nonneg w r -> base_time_nonneg w -> base_time_nonneg (serve w r).
Proof.
  unfold base_time_nonneg. intros Hr (x & Hx & Hle).
  destruct r as [req now | sid now | sid rnd | sid now | c sid data now | b]; simpl.
  - destruct (upload_current_time req now w) as [-> | ->]; eauto.
  - rewrite connect_state. eauto.
  - rewrite disconnect_current_time. eauto.
  - rewrite request_sync_state. eauto.
  - destruct (command_current_time c sid data now w) as [-> | (t & Hc & Ht & ->)]; eauto.
  - eauto.
Qed.

(** C7, as stated, fails: the server takes any number as the time of a
    command. After [U1] connected and uploaded, its [seek(-5.0)] leaves
    [baseTime = -5.0]. *)
Lemma C7_negative_seek :
  let w := serve_all [ Connect "U1" 90%float;
                       Upload upload_a 100%float;
                       Command Seek "U1" (time_payload (-5)%float) 110%float ] started in
  current_time (state w) = Some (-5)%float
  /\ ~ base_time_nonneg w.
Proof.
  cbv zeta.
  assert (H : current_time
                (state
                   (serve_all [ Connect "U1" 90%float;
                                Upload upload_a 100%float;
                                Command Seek "U1" (time_payload (-5)%float) 110%float ]
                      started))
              = Some (-5)%float) by (vm_compute; reflexivity).
  split; [exact H |].
  intros (x & Hx & Hle). rewrite H in Hx. apply (inj Some) in Hx. subst x.
  vm_compute in Hle. discriminate.
Qed.

(** C7, amended: [baseTime] is at least [0] in every state that the
    server reaches from its initial state by uploads, connects,
    disconnects (with their elections), snapshot requests, outages of the
    store, and play, pause and seek commands, provided the time of every
    command that the controller issues is at least [0] (which a NaN is
    not). The server itself does not check the time of a command. *)
Theorem C7_base_time_nonneg (rs : list request) :
  times_nonneg rs started -> base_time_nonneg (serve_all rs started).
Proof.
  unfold serve_all.
  assert (H0 : base_time_nonneg started).
  { exists 0%float. split; reflexivity. }
  revert H0. generalize started.
  induction rs as [| r rs IH]; intros w Hw Hrs; simpl.
  - exact Hw.
  - destruct Hrs as [Hr Hrs].
    apply IH; [| exact Hrs].
    apply serve_keeps_base_time_nonneg; assumption.
Qed.

Lemma C7_base_time_nonneg_witness :
  base_time_nonneg
    (serve_all [ Connect "U1" 90%float;
                 Upload upload_a 100%float;
                 Command Play "U1" (time_payload 12.5%float) 110%float;
                 Command Seek "U2" (time_payload (-5)%float) 115%float;
                 Disconnect "U1" 3 ] started).
Proof.
  apply C7_base_time_nonneg.
  cbn [times_nonneg time_nonneg]. repeat split.
  - intros _ t Ht. vm_compute in Ht. apply Ok_inj in Ht. subst t. reflexivity.
  - intros Hc. vm_compute in Hc. discriminate.
Defined.

(** ** Check and write of a command *)

Lemma step_check c sid data now w :
  step c sid data now at_check w
  = (Ok (if up w && bool_decide (controller_sid (state w) = Some sid)
         then at_write else returned), w).
Proof.
  cbn [step]. unfold bind, ret. rewrite is_controller_run.
  destruct (up w && bool_decide (controller_sid (state w) = Some sid)); reflexivity.
Qed.

Lemma step_write c sid data now w :
  step c sid data now at_write w
  = match py_float (get_time data) with
    | Ok t => if up w
              then (Ok (at_publish t), fold_left apply_pipe_cmd (writes c t now) w)
              else (Raise RedisError, w)
    | Raise e => (Raise e, w)
    end.
Proof.
  cbn [step]. unfold lift, pipe_execute, redis, bind, ret.
  destruct (py_float (get_time data)) as [t | e]; [| reflexivity].
  destruct (up w); reflexivity.
Qed.

Lemma step_publish c sid data now t w :
  step c sid data now (at_publish t) w
  = if up w
    then (Ok returned, set_channel (channel w ++ [sync_event c t sid]) w)
    else (Raise RedisError, w).
Proof.
  cbn [step]. unfold r_publish, redis, bind, ret.
  destruct (up w); reflexivity.
Qed.

Lemma writes_keep_up c t now w : up (fold_left apply_pipe_cmd (writes c t now) w) = up w.
Proof. destruct c; reflexivity. Qed.

Lemma own_turn_check c sid data now w :
  take_turn c sid data now (at_check, w) Own
  = (if up w && bool_decide (controller_sid (state w) = Some sid)
     then at_write else returned, w).
Proof. unfold take_turn. cbn [fst snd]. rewrite step_check. reflexivity. Qed.

Lemma own_turn_write c sid data now w :
  take_turn c sid data now (at_write, w) Own
  = match py_float (get_time data) with
    | Ok t => if up w
              then (at_publish t, fold_left apply_pipe_cmd (writes c t now) w)
              else (returned, w)
    | Raise e => (returned, w)
    end.
Proof.
  unfold take_turn. cbn [fst snd]. rewrite step_write.
  destruct (py_float (get_time data)); [destruct (up w) |]; reflexivity.
Qed.

Lemma own_turn_publish c sid data now t w :
  take_turn c sid data now (at_publish t, w) Own
  = (returned, if up w then set_channel (channel w ++ [sync_event c t sid]) w else w).
Proof.
  unfold take_turn. cbn [fst snd]. rewrite step_publish.
  destruct (up w); reflexivity.
Qed.

Lemma own_turn_returned c sid data now w :
  take_turn c sid data now (returned, w) Own = (returned, w).
Proof. reflexivity. Qed.

(** A handler that has returned takes no part in what follows. *)
Lemma returned_run c sid data now sched : forall w,
  run_schedule c sid data now sched (returned, w)
  = (returned, serve_all (others_of sched) w).
Proof.
  unfold run_schedule, serve_all.
  induction sched as [| [| r] sched IH]; intros w; simpl.
  - reflexivity.
  - apply IH.
  - apply IH.
Qed.

(** Run without another request in between, the three store operations
    are the handler. *)
Lemma handle_as_steps c sid data now w :
  run_schedule c sid data now [Own; Own; Own] (at_check, w)
  = (returned, snd (handle c sid data now w)).
Proof.
  unfold run_schedule. cbn [fold_left]. rewrite own_turn_check.
  destruct (up w && bool_decide (controller_sid (state w) = Some sid)) eqn:E.
  - apply andb_true_iff in E as [Hup Hc]. apply bool_decide_eq_true_1 in Hc.
    rewrite own_turn_write, Hup.
    destruct (py_float (get_time data)) as [t | e] eqn:Ht.
    + rewrite own_turn_publish, writes_keep_up, Hup.
      rewrite (handle_applied c sid data now w t Hup Hc Ht).
      destruct w as [u h us ch ob]. simpl in *. subst u.
      destruct c; reflexivity.
    + rewrite own_turn_returned.
      rewrite (handle_bad_time c sid data now w e Hup Hc Ht). reflexivity.
  - rewrite !own_turn_returned.
    rewrite (handle_refused c sid data now w E). reflexivity.
Qed.

(** C3, as stated, fails: in the schedule [upload_between] the handler of
    [U1]'s [play(30.0)] checks [U1] while [U1] is the controller, [U2]'s
    upload makes [U2] the controller, and then the handler writes: the
    state plays at [30.0] by the command of [U1], who no longer has the
    authority. *)
Lemma C3_write_after_authority_lost :
  let data := time_payload 30%float in
  let final := snd (run_schedule Play "U1" data 200%float upload_between (at_check, paused_world)) in
  ~ writes_with_authority Play "U1" data 200%float upload_between (at_check, paused_world)
  /\ state final
     = mk_hash (Some "/static/videos/b.mp4") (Some "1") (Some 30%float) (Some 200%float)
         (Some "U2").
Proof.
  cbv zeta. split.
  - intros H. unfold upload_between in H. cbn [writes_with_authority] in H.
    destruct H as (_ & _ & H & _).
    specialize (H eq_refl). vm_compute in H. specialize (H eq_refl). discriminate.
  - vm_compute. reflexivity.
Qed.

(** * Further properties of the code *)

(** ** File names *)

Lemma after_last_dot_none s : after_last_dot s = None <-> has_dot s = false.
Proof.
  induction s as [| c s IH]; simpl; [tauto |].
  destruct (after_last_dot s) as [e |].
  - split; [discriminate |]. intros H. apply orb_false_iff in H as [_ H].
    apply IH in H. discriminate.
  - destruct (Ascii.eqb c "."%char); simpl; [split; discriminate |].
    split; [intros _; apply IH; reflexivity | reflexivity].
Qed.

Lemma after_last_dot_app stem ext :
  has_dot ext = false -> after_last_dot (stem +:+ String "."%char ext) = Some ext.
Proof.
  intros H. apply after_last_dot_none in H.
  induction stem as [| c stem IH].
  - change (after_last_dot (String "."%char ext) = Some ext).
    simpl. rewrite H. reflexivity.
  - change (after_last_dot (String c (stem +:+ String "."%char ext)) = Some ext).
    simpl. rewrite IH. reflexivity.
Qed.

Lemma after_last_dot_some s : forall ext,
  after_last_dot s = Some ext ->
  exists stem, s = stem +:+ String "."%char ext /\ has_dot ext = false.
Proof.
  induction s as [| c s IH]; simpl; intros ext H; [discriminate |].
  destruct (after_last_dot s) as [e |] eqn:E.
  - injection H as ->. destruct (IH ext eq_refl) as (stem & -> & Hd).
    exists (String c stem). split; [reflexivity | exact Hd].
  - destruct (Ascii.eqb_spec c "."%char) as [-> | _]; [| discriminate].
    injection H as ->. exists EmptyString. split; [reflexivity |].
    apply after_last_dot_none, E.
Qed.

(** X1: [allowed_file] accepts exactly the names that end in a dot and an
    extension without further dots which, in lower case, is [mp4], [webm]
    or [ogg]; only the last extension of a name counts. *)
Theorem allowed_file_spec (filename : string) :
  allowed_file filename = true
  <-> exists stem ext,
        filename = stem +:+ String "."%char ext
        /\ has_dot ext = false
        /\ lower ext ∈ ALLOWED_EXTENSIONS.
Proof.
  unfold allowed_file. split.
  - destruct (after_last_dot filename) as [ext |] eqn:E; [| discriminate].
    intros H. apply bool_decide_eq_true_1 in H.
    destruct (after_last_dot_some _ _ E) as (stem & -> & Hd).
    exists stem, ext. auto.
  - intros (stem & ext & -> & Hd & Hin).
    rewrite (after_last_dot_app stem ext Hd).
    apply bool_decide_eq_true_2, Hin.
Qed.

Lemma lower_ascii_dot c : Ascii.eqb (lower_ascii c) "."%char = Ascii.eqb c "."%char.
Proof. destruct c as [[] [] [] [] [] [] [] []]; reflexivity. Qed.

Lemma lower_ascii_idem c : lower_ascii (lower_ascii c) = lower_ascii c.
Proof. destruct c as [[] [] [] [] [] [] [] []]; reflexivity. Qed.

Lemma lower_idem s : lower (lower s) = lower s.
Proof.
  induction s as [| c s IH]; simpl; [reflexivity |].
  rewrite lower_ascii_idem, IH. reflexivity.
Qed.

Lemma after_last_dot_lower s : after_last_dot (lower s) = lower <$> after_last_dot s.
Proof.
  induction s as [| c s IH]; simpl; [reflexivity |].
  rewrite IH, lower_ascii_dot.
  destruct (after_last_dot s); simpl; [reflexivity |].
  destruct (Ascii.eqb c "."%char); reflexivity.
Qed.

(** X2: the case of the letters of a file name does not matter to
    [allowed_file]. *)
Theorem allowed_file_ignores_case (filename : string) :
  allowed_file (lower filename) = allowed_file filename.
Proof.
  unfold allowed_file. rewrite after_last_dot_lower.
  destruct (after_last_dot filename) as [ext |]; simpl; [| reflexivity].
  rewrite lower_idem. reflexivity.
Qed.

(** ** Upload *)

Lemma upload_accepted req now w name sid :
  up w = true ->
  file req = Some name ->
  name <> EmptyString ->
  allowed_file name = true ->
  form_sid req = Some sid ->
  sid <> EmptyString ->
  upload_video req now w
  = (Ok NoContent_204,
     mk_world true
       (mk_hash (Some (video_url req)) (Some "0") (Some 0%float) (Some now) (Some sid))
       (users w)
       (channel w ++ [video_loaded (video_url req) sid; controller_change sid])
       (outbox w)).
Proof.
  intros Hup Hf Hn Ha Hs Hne. unfold upload_video. rewrite Hf, Ha, Hs.
  apply String.eqb_neq in Hn, Hne. rewrite Hn. simpl. rewrite Hne. simpl.
  unfold_M. destruct w as [u h us ch ob]. simpl in *. subst u. simpl.
  rewrite <- app_assoc. reflexivity.
Qed.

(** In the model the store answers all calls of one request or none, so
    an upload that is not answered with 204 has written nothing. *)
Lemma upload_rejected_cases req now w :
  fst (upload_video req now w) = Ok NoContent_204
  \/ snd (upload_video req now w) = w.
Proof.
  unfold upload_video.
  destruct (file req) as [name |]; [| right; reflexivity].
  destruct (String.eqb name EmptyString); [right; reflexivity |].
  destruct (allowed_file name); [| right; reflexivity].
  destruct (negb (truthy (form_sid req))); [right; reflexivity |].
  unfold_M. destruct w as [u h us ch ob]. destruct u; simpl; [left | right]; reflexivity.
Qed.

(** X3: a malformed upload (no file part, an empty file name, an
    extension that [allowed_file] refuses, or no [sid]) is answered with
    400 and touches nothing, whatever the store does: the request is
    checked before any call to the store. A well-formed upload is never
    answered with 400. *)
Theorem malformed_upload_touches_nothing
    (req : upload_request) (now : pyfloat) (w : world) :
  (well_formed_upload req ->
     forall msg, fst (upload_video req now w) <> Ok (Error_400 msg))
  /\ (~ well_formed_upload req ->
     exists msg, upload_video req now w = (Ok (Error_400 msg), w)).
Proof.
  unfold well_formed_upload, upload_video. split.
  - intros (name & sid & -> & Hn & -> & -> & Hs) msg.
    apply String.eqb_neq in Hn, Hs. rewrite Hn. simpl. rewrite Hs. simpl.
    unfold_M. destruct w as [u h us ch ob]. destruct u; simpl; discriminate.
  - intros Hbad.
    destruct (file req) as [name |]; [| eauto].
    destruct (String.eqb_spec name EmptyString) as [| Hn]; [eauto |].
    destruct (allowed_file name) eqn:Ha; [| eauto].
    destruct (form_sid req) as [sid |]; [| simpl; eauto].
    simpl. destruct (String.eqb_spec sid EmptyString) as [| Hs]; simpl; [eauto |].
    exfalso. apply Hbad. exists name, sid. auto.
Qed.

Lemma upload_accepted_iff_aux req now w :
  fst (upload_video req now w) = Ok NoContent_204 ->
  up w = true
  /\ exists name sid,
       file req = Some name /\ name <> EmptyString /\ allowed_file name = true
       /\ form_sid req = Some sid /\ sid <> EmptyString.
Proof.
  unfold upload_video.
  destruct (file req) as [name |]; [| discriminate].
  destruct (String.eqb_spec name EmptyString) as [| Hn]; [discriminate |].
  destruct (allowed_file name) eqn:Ha; [| discriminate].
  destruct (form_sid req) as [sid |]; [| discriminate].
  simpl. destruct (String.eqb sid EmptyString) eqn:Hs; simpl; [discriminate |].
  apply String.eqb_neq in Hs.
  unfold_M. destruct (up w) eqn:Hup; simpl; [| discriminate].
  intros _. split; [reflexivity |]. exists name, sid. repeat split; assumption.
Qed.

(** X4: an upload is answered with 204 exactly when the store answers,
    the request has a file part with a name that is not empty and that
    [allowed_file] accepts, and the form field [sid] is there and not
    empty. *)
Theorem upload_accepted_iff (req : upload_request) (now : pyfloat) (w : world) :
  fst (upload_video req now w) = Ok NoContent_204
  <-> up w = true
      /\ exists name sid,
           file req = Some name /\ name <> EmptyString /\ allowed_file name = true
           /\ form_sid req = Some sid /\ sid <> EmptyString.
Proof.
  split; [apply upload_accepted_iff_aux |].
  intros (Hup & name & sid & Hf & Hn & Ha & Hs & Hne).
  rewrite (upload_accepted req now w name sid Hup Hf Hn Ha Hs Hne). reflexivity.
Qed.

(** ** Connect, snapshot request, disconnect *)

Lemma handle_connect_up sid now w :
  up w = true ->
  exists d,
    get_current_state now w = (Ok d, w)
    /\ handle_connect sid now w
       = (Ok tt,
          mk_world true (state w) ({[ sid ]} ∪ users w) (channel w)
            (outbox w ++ [(sid, d)])).
Proof.
  intros Hup. unfold_M. destruct w as [u h us ch ob]. simpl in *. subst u. simpl.
  eexists. split; reflexivity.
Qed.

Lemma handle_request_sync_run sid now w :
  exists d,
    get_current_state now w = (Ok d, w)
    /\ handle_request_sync sid now w = (Ok tt, set_outbox (outbox w ++ [(sid, d)]) w).
Proof.
  unfold_M. destruct (up w); simpl; eexists; split; reflexivity.
Qed.

Lemma handle_disconnect_other sid rnd w :
  up w = true ->
  controller_sid (state w) <> Some sid ->
  handle_disconnect sid rnd w = (Ok tt, set_users (users w ∖ {[ sid ]}) w).
Proof.
  intros Hup Hc. unfold_M. rewrite Hup. simpl.
  rewrite Hup. simpl. rewrite bool_decide_eq_false_2 by assumption. reflexivity.
Qed.

Lemma handle_disconnect_down sid rnd w :
  up w = false -> handle_disconnect sid rnd w = (Ok tt, w).
Proof. intros Hup. unfold_M. rewrite Hup. reflexivity. Qed.

Lemma handle_connect_down sid now w :
  up w = false -> handle_connect sid now w = (Ok tt, w).
Proof. intros Hup. unfold_M. rewrite Hup. reflexivity. Qed.

(** X5: while the store answers, a connect registers the session, leaves
    the playback state (the controller among it) and the channel alone,
    and emits to the new session exactly one [sync_state]: the snapshot
    that a [request_sync] at the same instant delivers. *)
Theorem connect_delivers_the_snapshot (sid : string) (now : pyfloat) (w : world) :
  up w = true ->
  exists d,
    fst (get_current_state now w) = Ok d
    /\ handle_connect sid now w
       = (Ok tt,
          mk_world true (state w) ({[ sid ]} ∪ users w) (channel w)
            (outbox w ++ [(sid, d)]))
    /\ handle_request_sync sid now w
       = (Ok tt, set_outbox (outbox w ++ [(sid, d)]) w).
Proof.
  intros Hup.
  destruct (handle_connect_up sid now w Hup) as (d & Hd & Hc).
  destruct (handle_request_sync_run sid now w) as (d' & Hd' & Hr).
  assert (d' = d) as -> by (rewrite Hd in Hd'; apply (f_equal fst) in Hd';
                            simpl in Hd'; symmetry; apply Ok_inj, Hd').
  exists d. rewrite Hd. auto.
Qed.

Lemma connect_delivers_the_snapshot_witness :
  exists d,
    fst (get_current_state 103%float playing_world) = Ok d
    /\ position d = Some 13%float
    /\ outbox (snd (handle_connect "U2" 103%float playing_world)) = [("U2", d)].
Proof.
  destruct (connect_delivers_the_snapshot "U2" 103%float playing_world eq_refl)
    as (d & Hd & Hc & _).
  exists d. split; [exact Hd |]. split.
  - vm_compute in Hd. apply Ok_inj in Hd. subst d. vm_compute. reflexivity.
  - rewrite Hc. reflexivity.
Defined.

(** X6: while the store is away, a connect neither registers the session
    nor emits anything, whereas a [request_sync] still answers, with the
    empty dict; neither raises. *)
Theorem connect_and_sync_during_outage (sid : string) (now : pyfloat) (w : world) :
  up w = false ->
  handle_connect sid now w = (Ok tt, w)
  /\ handle_request_sync sid now w = (Ok tt, set_outbox (outbox w ++ [(sid, ∅)]) w).
Proof.
  intros Hup. split; [apply handle_connect_down, Hup |].
  unfold_M. rewrite Hup. reflexivity.
Qed.

Lemma connect_and_sync_during_outage_witness :
  handle_connect "U3" 5%float (set_up false paused_world) = (Ok tt, set_up false paused_world).
Proof.
  apply (connect_and_sync_during_outage "U3" 5%float (set_up false paused_world)).
  reflexivity.
Defined.

(** X7: while the store is away, play, pause and seek of any session, the
    controller included, and every disconnect are dropped without a
    trace: they return normally and change nothing, so a controller that
    leaves stays recorded as controller and as connected. *)
Theorem commands_and_disconnect_during_outage
    (c : command) (sid : string) (data : gmap string jval) (now : pyfloat)
    (rnd : nat) (w : world) :
  up w = false ->
  handle c sid data now w = (Ok tt, w)
  /\ handle_disconnect sid rnd w = (Ok tt, w).
Proof.
  intros Hup. split.
  - apply handle_refused. rewrite Hup. reflexivity.
  - apply handle_disconnect_down, Hup.
Qed.

Lemma commands_and_disconnect_during_outage_witness :
  handle Play "U1" (time_payload 7%float) 120%float (set_up false paused_world)
  = (Ok tt, set_up false paused_world)
  /\ handle_disconnect "U1" 0 (set_up false paused_world)
     = (Ok tt, set_up false paused_world).
Proof.
  apply (commands_and_disconnect_during_outage Play "U1" (time_payload 7%float)
           120%float 0 (set_up false paused_world)).
  reflexivity.
Defined.

(** X8: the disconnect of a session that is not the controller only
    removes it from the connected sessions: no election, nothing
    published, the playback state untouched. *)
Theorem disconnect_of_non_controller (sid : string) (rnd : nat) (w : world) :
  up w = true ->
  controller_sid (state w) <> Some sid ->
  handle_disconnect sid rnd w = (Ok tt, set_users (users w ∖ {[ sid ]}) w).
Proof. apply handle_disconnect_other. Qed.

Lemma disconnect_of_non_controller_witness :
  handle_disconnect "U2" 4 paused_world
  = (Ok tt, set_users (users paused_world ∖ {[ "U2" ]}) paused_world).
Proof.
  apply (disconnect_of_non_controller "U2" 4 paused_world); [reflexivity | discriminate].
Defined.

(** X9: a session that connects and disconnects again, without being the
    controller and without having been connected before, leaves behind
    only the snapshot that it was sent: sessions, playback state and
    channel are as before. *)
Theorem connect_then_disconnect (sid : string) (now : pyfloat) (rnd : nat) (w : world) :
  up w = true ->
  sid ∉ users w ->
  controller_sid (state w) <> Some sid ->
  let w' := snd (handle_disconnect sid rnd (snd (handle_connect sid now w))) in
  users w' = users w /\ state w' = state w /\ channel w' = channel w
  /\ exists d, outbox w' = (outbox w ++ [(sid, d)])%list.
Proof.
  intros Hup Hin Hc.
  destruct (handle_connect_up sid now w Hup) as (d & _ & ->). cbn [snd].
  rewrite handle_disconnect_other by (simpl; auto). cbn.
  repeat split; [| eauto].
  apply set_eq. intros x.
  rewrite elem_of_difference, elem_of_union, elem_of_singleton.
  split; [tauto |]. intros Hx. split; [tauto |]. intros ->. contradiction.
Qed.

Lemma connect_then_disconnect_witness :
  users (snd (handle_disconnect "U3" 1 (snd (handle_connect "U3" 101%float paused_world))))
  = users paused_world.
Proof.
  apply (connect_then_disconnect "U3" 101%float 1 paused_world).
  - reflexivity.
  - simpl. rewrite elem_of_union, !elem_of_singleton. intros [H | H]; discriminate.
  - discriminate.
Defined.

(** ** Commands *)

(** X10: a command of the controller whose time [float(...)] cannot
    convert ([null], or an integer beyond the range of a float) raises
    that exception out of the handler; nothing is written and nothing
    published. *)
Theorem command_with_bad_time_raises
    (c : command) (sid : string) (data : gmap string jval) (now : pyfloat)
    (e : exn) (w : world) :
  up w = true ->
  controller_sid (state w) = Some sid ->
  py_float (get_time data) = Raise e ->
  handle c sid data now w = (Raise e, w).
Proof. apply handle_bad_time. Qed.

Lemma command_with_bad_time_raises_witness :
  handle Seek "U1" {[ "time" := JNull ]} 120%float paused_world = (Raise TypeError, paused_world)
  /\ handle Play "U1" {[ "time" := JInt (2 ^ 1024) ]} 120%float paused_world
     = (Raise OverflowError, paused_world).
Proof.
  split.
  - apply (command_with_bad_time_raises Seek "U1" {[ "time" := JNull ]} 120%float
             TypeError paused_world); reflexivity.
  - apply (command_with_bad_time_raises Play "U1" {[ "time" := JInt (2 ^ 1024) ]} 120%float
             OverflowError paused_world); reflexivity.
Defined.

(** X11: a play or pause of the controller, with a time that [float]
    turns into [t], sets [isPlaying] (on for play, off for pause),
    [baseTime = t] and [lastUpdateAt = now], keeps [videoUrl] and
    [controllerId], publishes exactly one event, [sync_play] or
    [sync_pause] with [t] and the issuer, and touches neither the sessions
    nor any client. *)
Theorem play_and_pause_effect
    (sid : string) (data : gmap string jval) (now t : pyfloat) (w : world) :
  up w = true ->
  controller_sid (state w) = Some sid ->
  py_float (get_time data) = Ok t ->
  handle_play sid data now w
  = (Ok tt,
     mk_world true
       (mk_hash (video_file_url (state w)) (Some "1") (Some t) (Some now) (Some sid))
       (users w) (channel w ++ [sync_play t sid]) (outbox w))
  /\ handle_pause sid data now w
     = (Ok tt,
        mk_world true
          (mk_hash (video_file_url (state w)) (Some "0") (Some t) (Some now) (Some sid))
          (users w) (channel w ++ [sync_pause t sid]) (outbox w)).
Proof.
  intros Hup Hc Ht. split.
  - change (handle_play sid data now w) with (handle Play sid data now w).
    rewrite (handle_applied Play sid data now w t Hup Hc Ht).
    unfold written. rewrite Hc. reflexivity.
  - change (handle_pause sid data now w) with (handle Pause sid data now w).
    rewrite (handle_applied Pause sid data now w t Hup Hc Ht).
    unfold written. rewrite Hc. reflexivity.
Qed.

Lemma play_and_pause_effect_witness :
  state (snd (handle_play "U1" {[ "time" := JInt 12 ]} 120%float paused_world))
  = mk_hash (Some "a.mp4") (Some "1") (Some 12%float) (Some 120%float) (Some "U1").
Proof.
  assert (Ht : py_float (get_time {[ "time" := JInt 12 ]}) = Ok 12%float)
    by (vm_compute; reflexivity).
  destruct (play_and_pause_effect "U1" {[ "time" := JInt 12 ]} 120%float 12%float
              paused_world eq_refl eq_refl Ht) as [H _].
  rewrite H. reflexivity.
Defined.

Lemma reported_position_up now w :
  up w = true ->
  reported_position now w
  = Some (if playing (state w)
          then (base_time (state w) + (now - last_update (state w)))%float
          else base_time (state w)).
Proof.
  intros Hup. destruct (get_current_state_up now w Hup) as (d & Hd & Hpos).
  unfold reported_position. rewrite Hd. exact Hpos.
Qed.

(** X12: what a snapshot read at [later] reports after a command of the
    controller at [now] with time [t]: [t + (later - now)] after a play,
    [t] after a pause, and after a seek the one or the other as the state
    was playing or not. *)
Theorem position_after_command
    (c : command) (sid : string) (data : gmap string jval) (now later t : pyfloat)
    (w : world) :
  up w = true ->
  controller_sid (state w) = Some sid ->
  py_float (get_time data) = Ok t ->
  reported_position later (snd (handle c sid data now w))
  = Some (match c with
          | Play => (t + (later - now))%float
          | Pause => t
          | Seek => if playing (state w) then (t + (later - now))%float else t
          end).
Proof.
  intros Hup Hc Ht.
  rewrite (handle_applied c sid data now w t Hup Hc Ht). cbn [snd].
  rewrite reported_position_up by reflexivity.
  destruct c; reflexivity.
Qed.

Lemma position_after_command_witness :
  reported_position 103%float
    (snd (handle Play "U1" (time_payload 12.5%float) 100%float paused_world))
  = Some 15.5%float.
Proof.
  rewrite (position_after_command Play "U1" (time_payload 12.5%float) 100%float
             103%float 12.5%float paused_world eq_refl eq_refl eq_refl).
  reflexivity.
Defined.

(** X13: a successful upload takes the control: afterwards the commands
    of every other session are discarded, the previous controller
    included, and a snapshot read at any time reports position [0.0] for
    the new video. *)
Theorem upload_takes_control
    (req : upload_request) (now : pyfloat) (w : world)
    (c : command) (sid : string) (data : gmap string jval) (later : pyfloat) :
  fst (upload_video req now w) = Ok NoContent_204 ->
  form_sid req <> Some sid ->
  let w' := snd (upload_video req now w) in
  handle c sid data later w' = (Ok tt, w')
  /\ reported_position later w' = Some 0%float.
Proof.
  intros H204 Hsid.
  apply upload_accepted_iff_aux in H204 as (Hup & name & s & Hf & Hn & Ha & Hs & Hne).
  rewrite (upload_accepted req now w name s Hup Hf Hn Ha Hs Hne). cbn [snd]. split.
  - apply handle_refused. simpl. apply bool_decide_eq_false_2. congruence.
  - rewrite reported_position_up by reflexivity. reflexivity.
Qed.

Lemma upload_takes_control_witness :
  handle Pause "U1" (time_payload 3%float) 160%float
    (snd (upload_video upload_b 150%float playing_world))
  = (Ok tt, snd (upload_video upload_b 150%float playing_world)).
Proof.
  apply (upload_takes_control upload_b 150%float playing_world Pause "U1"
           (time_payload 3%float) 160%float); [reflexivity | discriminate].
Defined.

(** ** What a request can do to the world *)

Lemma handle_disconnect_controller sid rnd w :
  up w = true ->
  controller_sid (state w) = Some sid ->
  exists c,
    handle_disconnect sid rnd w
    = (Ok tt,
       mk_world true (apply_hset (state w) (hset_controller_sid c))
         (users w ∖ {[ sid ]}) (channel w ++ [controller_change c]) (outbox w))
    /\ ((c = EmptyString /\ users w ∖ {[ sid ]} = ∅) \/ c ∈ users w ∖ {[ sid ]}).
Proof.
  intros Hup Hc. destruct w as [u h us ch ob]. simpl in *. subst u.
  unfold_M. simpl. rewrite Hc, bool_decide_eq_true_2 by reflexivity. simpl.
  pose proof (srandmember_member rnd (us ∖ {[ sid ]})) as Hm.
  destruct (elements (us ∖ {[ sid ]}) !! (rnd mod length (elements (us ∖ {[ sid ]}))))
    as [s |]; simpl.
  - destruct (String.eqb_spec s EmptyString) as [-> | Hs]; simpl;
      eexists; (split; [reflexivity | auto]).
  - eexists. split; [reflexivity | auto].
Qed.

Lemma world_eta w : mk_world (up w) (state w) (users w) (channel w) (outbox w) = w.
Proof. destruct w; reflexivity. Qed.

Lemma serve_effect (w : world) (r : request) : effect w r (serve w r).
Proof.
  destruct r as [req now | sid now | sid rnd | sid now | c sid data now | b]; simpl.
  - destruct (upload_rejected_cases req now w) as [H | H].
    + destruct (upload_accepted_iff_aux req now w H)
        as (Hup & name & s & Hf & Hn & Ha & Hs & Hne).
      rewrite (upload_accepted req now w name s Hup Hf Hn Ha Hs Hne).
      apply effect_upload; assumption.
    + rewrite H. rewrite <- (world_eta w) at 2. apply effect_none.
  - destruct (up w) eqn:Hup.
    + destruct (handle_connect_up sid now w Hup) as (d & _ & ->).
      apply effect_connect, Hup.
    + rewrite (handle_connect_down sid now w Hup).
      rewrite <- (world_eta w) at 2. apply effect_none.
  - destruct (up w) eqn:Hup.
    + destruct (decide (controller_sid (state w) = Some sid)) as [Hc | Hc].
      * destruct (handle_disconnect_controller sid rnd w Hup Hc) as (c & -> & _).
        apply effect_elect; assumption.
      * rewrite (handle_disconnect_other sid rnd w Hup Hc).
        apply effect_leave; assumption.
    + rewrite (handle_disconnect_down sid rnd w Hup).
      rewrite <- (world_eta w) at 2. apply effect_none.
  - destruct (handle_request_sync_run sid now w) as (d & _ & ->). apply effect_emit.
  - destruct (up w && bool_decide (controller_sid (state w) = Some sid)) eqn:E.
    + apply andb_true_iff in E as [Hup Hc]. apply bool_decide_eq_true_1 in Hc.
      destruct (py_float (get_time data)) as [t | e] eqn:Ht.
      * rewrite (handle_applied c sid data now w t Hup Hc Ht).
        apply effect_command; assumption.
      * rewrite (handle_bad_time c sid data now w e Hup Hc Ht).
        rewrite <- (world_eta w) at 2. apply effect_none.
    + rewrite (handle_refused c sid data now w E).
      rewrite <- (world_eta w) at 2. apply effect_none.
  - apply effect_none.
Qed.

Lemma serve_all_app rs1 rs2 w : serve_all (rs1 ++ rs2) w = serve_all rs2 (serve_all rs1 w).
Proof. unfold serve_all. apply fold_left_app. Qed.

(** ** Invariants *)

(** X14: while [controllerId] is the empty string, which it is from the
    start until the first upload and again after the last session left,
    no session with a name can change anything: whatever is connected,
    disconnected, requested or commanded, short of an upload, the playback
    state stays as it is and nothing is published. *)
Theorem no_controller_without_upload (rs : list request) (w : world) :
  controller_sid (state w) = Some EmptyString ->
  Forall no_upload_named rs ->
  state (serve_all rs w) = state w /\ channel (serve_all rs w) = channel w.
Proof.
  intros Hc Hrs. revert w Hc. unfold serve_all.
  induction Hrs as [| r rs Hr _ IH]; intros w Hc; simpl; [auto |].
  assert (H : state (serve w r) = state w /\ channel (serve w r) = channel w).
  { destruct (serve_effect w r) as
      [r b | r sid d | req now sid | sid now d | sid rnd | sid rnd c | c sid data now t];
      simpl in *; auto; try contradiction; congruence. }
  destruct H as [Hs Hch].
  destruct (IH (serve w r)) as [IHs IHc]; [rewrite Hs; exact Hc |].
  rewrite IHs, IHc. auto.
Qed.

Lemma no_controller_without_upload_witness :
  state (serve_all [ Connect "U1" 1%float;
                     Command Play "U1" (time_payload 9%float) 2%float;
                     RequestSync "U1" 3%float;
                     Disconnect "U1" 0 ] started)
  = state started.
Proof.
  apply (no_controller_without_upload
           [ Connect "U1" 1%float;
             Command Play "U1" (time_payload 9%float) 2%float;
             RequestSync "U1" 3%float;
             Disconnect "U1" 0 ] started).
  - reflexivity.
  - repeat constructor; discriminate.
Defined.

Lemma serve_keeps_complete w r : complete (state w) -> complete (state (serve w r)).
Proof.
  unfold complete. intros (Hu & Hp & Ht & Hl & Hc).
  destruct (serve_effect w r) as
    [r b | r sid d | req now sid | sid now d | sid rnd | sid rnd c | c sid data now t];
    simpl; auto 10.
  destruct c; simpl; auto 10.
Qed.

(** X15: in every state that the server reaches from its start, all five
    fields of the playback state are present and [is_playing] is ["0"] or
    ["1"]. *)
Theorem reachable_states_are_complete (rs : list request) :
  complete (state (serve_all rs started)).
Proof.
  assert (H0 : complete (state started)).
  { unfold complete. simpl. eauto 10. }
  revert H0. generalize started. unfold serve_all.
  induction rs as [| r rs IH]; intros w Hw; simpl; [exact Hw |].
  apply IH, serve_keeps_complete, Hw.
Qed.


(** X17: only connects and disconnects change who is connected, and only
    while the store answers: a connect adds its session, a disconnect
    removes its session, and every other request leaves the sessions as
    they are. *)
Theorem sessions_after_request (r : request) (w : world) :
  users (serve w r)
  = match r with
    | Connect sid _ => if up w then {[ sid ]} ∪ users w else users w
    | Disconnect sid _ => if up w then users w ∖ {[ sid ]} else users w
    | _ => users w
    end.
Proof.
  destruct r as [req now | sid now | sid rnd | sid now | c sid data now | b]; simpl.
  - destruct (upload_rejected_cases req now w) as [H | H].
    + destruct (upload_accepted_iff_aux req now w H)
        as (Hup & name & s & Hf & Hn & Ha & Hs & Hne).
      rewrite (upload_accepted req now w name s Hup Hf Hn Ha Hs Hne). reflexivity.
    + rewrite H. reflexivity.
  - destruct (up w) eqn:Hup.
    + destruct (handle_connect_up sid now w Hup) as (d & _ & ->). reflexivity.
    + rewrite (handle_connect_down sid now w Hup). reflexivity.
  - destruct (up w) eqn:Hup.
    + destruct (decide (controller_sid (state w) = Some sid)) as [Hc | Hc].
      * destruct (handle_disconnect_controller sid rnd w Hup Hc) as (c & -> & _).
        reflexivity.
      * rewrite (handle_disconnect_other sid rnd w Hup Hc). reflexivity.
    + rewrite (handle_disconnect_down sid rnd w Hup). reflexivity.
  - destruct (handle_request_sync_run sid now w) as (d & _ & ->). reflexivity.
  - destruct (up w && bool_decide (controller_sid (state w) = Some sid)) eqn:E.
    + apply andb_true_iff in E as [Hup Hc]. apply bool_decide_eq_true_1 in Hc.
      destruct (py_float (get_time data)) as [t | e] eqn:Ht.
      * rewrite (handle_applied c sid data now w t Hup Hc Ht). reflexivity.
      * rewrite (handle_bad_time c sid data now w e Hup Hc Ht). reflexivity.
    + rewrite (handle_refused c sid data now w E). reflexivity.
  - reflexivity.
Qed.

(** ** Start and shutdown *)

Lemma initialize_redis_state_run w :
  initialize_redis_state w
  = (Ok tt,
     if up w
     then mk_world true
            (mk_hash (Some EmptyString) (Some "0") (Some 0%float) (Some 0%float)
               (Some EmptyString))
            ∅ (channel w) (outbox w)
     else w).
Proof. unfold_M. destruct w as [u h us ch ob]. destruct u; reflexivity. Qed.

(** X18: [initialize_redis_state] never raises; on a store that answers
    it replaces whatever playback state and sessions there were by the
    defaults and the empty set, and on a store that is away it does
    nothing. Running it twice is running it once. *)
Theorem initialize_resets (w : world) :
  initialize_redis_state w
  = (Ok tt,
     if up w
     then mk_world true
            (mk_hash (Some EmptyString) (Some "0") (Some 0%float) (Some 0%float)
               (Some EmptyString))
            ∅ (channel w) (outbox w)
     else w)
  /\ initialize_redis_state (snd (initialize_redis_state w)) = initialize_redis_state w.
Proof.
  unfold_M. destruct w as [u h us ch ob]. destruct u; split; reflexivity.
Qed.

(** X19: when [main] ends on a store that answers, the playback state has
    no field left and no session is recorded, whatever was served; when
    the store is away at that moment, [main] ends with [RedisError] and
    state and sessions stay behind as they were. *)
Theorem main_clears_the_store (rs : list request) (w : world) :
  let served := serve_all rs (snd (initialize_redis_state w)) in
  main rs w
  = if up served
    then (Ok tt, mk_world true no_hash ∅ (channel served) (outbox served))
    else (Raise RedisError, served).
Proof.
  cbv zeta. unfold main, bind.
  rewrite initialize_redis_state_run. cbn [snd].
  unfold r_delete_state, r_delete_users, redis.
  destruct (serve_all rs _) as [u h us ch ob]. destruct u; reflexivity.
Qed.

(** X20: on a store that answers but holds no playback state (as after
    the shutdown), a snapshot read returns exactly the default playback
    state, at any time, and no session is the controller, not even one
    with the empty id. *)
Theorem snapshot_of_empty_store (now : pyfloat) (sid : string) (w : world) :
  up w = true ->
  state w = no_hash ->
  get_current_state now w = (Ok default_playback_state, w)
  /\ is_controller sid w = (Ok false, w).
Proof.
  intros Hup Hs. rewrite is_controller_run, Hup, Hs. split; [| reflexivity].
  unfold_M. rewrite Hup, Hs. reflexivity.
Qed.

Lemma snapshot_of_empty_store_witness :
  get_current_state 77%float (snd (main [] fresh_redis))
  = (Ok default_playback_state, snd (main [] fresh_redis)).
Proof.
  apply (snapshot_of_empty_store 77%float "U1" (snd (main [] fresh_redis))); reflexivity.
Defined.

(** X21: while the store answers, a snapshot read never raises, changes
    nothing, and returns a dict that always has the keys
    [video_file_url], [is_playing], [current_time] and [controller_sid],
    with a boolean under [is_playing] and a float under [current_time],
    and that has the key [last_update_timestamp] exactly when the stored
    state has that field. *)
Theorem snapshot_shape (now : pyfloat) (w : world) :
  up w = true ->
  exists d x,
    get_current_state now w = (Ok d, w)
    /\ dom d = snapshot_keys (state w)
    /\ d !! "is_playing" = Some (PBool (playing (state w)))
    /\ d !! "current_time" = Some (PFloat x)
    /\ d !! "video_file_url" = Some (PStr (default EmptyString (video_file_url (state w))))
    /\ d !! "controller_sid" = Some (PStr (default EmptyString (controller_sid (state w)))).
Proof.
  intros Hup. unfold_M. rewrite Hup. eexists. eexists. split; [reflexivity |].
  split.
  - unfold snapshot_keys, dict_of_hash. rewrite !dom_insert_L.
    destruct (state w) as [[u |] [p |] [t |] [l |] [c |]]; simpl;
      rewrite ?dom_insert_L, ?dom_empty_L; set_solver.
  - repeat split.
    + rewrite lookup_insert_ne by discriminate.
      rewrite lookup_insert_ne by discriminate.
      apply lookup_insert_eq.
    + rewrite lookup_insert_ne by discriminate.
      rewrite lookup_insert_ne by discriminate.
      rewrite lookup_insert_ne by discriminate.
      apply lookup_insert_eq.
    + apply lookup_insert_eq.
    + rewrite lookup_insert_ne by discriminate. apply lookup_insert_eq.
Qed.

Lemma snapshot_shape_witness :
  exists d,
    get_current_state 103%float playing_world = (Ok d, playing_world)
    /\ dom d = snapshot_keys (state playing_world).
Proof.
  destruct (snapshot_shape 103%float playing_world eq_refl) as (d & x & H1 & H2 & _).
  exists d. split; assumption.
Defined.

(** ** Election *)

(** X22: [elect_new_controller] never raises. On a store that is away it
    returns [None] and does nothing. On a store that answers it writes
    only [controller_sid], publishes one [controller_change] with the
    value written, and returns [None] with the empty string written when
    no session is connected, and a connected session, which is the value
    written, otherwise. So [None] alone does not tell an empty room from
    an outage. *)
Theorem elect_new_controller_result (rnd : nat) (w : world) :
  if up w
  then exists c,
         snd (elect_new_controller rnd w)
         = mk_world true (apply_hset (state w) (hset_controller_sid c)) (users w)
             (channel w ++ [controller_change c]) (outbox w)
         /\ ((fst (elect_new_controller rnd w) = Ok None
              /\ c = EmptyString /\ users w = ∅)
             \/ (fst (elect_new_controller rnd w) = Ok (Some c) /\ c ∈ users w))
  else elect_new_controller rnd w = (Ok None, w).
Proof.
  destruct w as [u h us ch ob]. destruct u; simpl; [| reflexivity].
  unfold_M. simpl.
  pose proof (srandmember_member rnd us) as Hm.
  destruct (elements us !! (rnd mod length (elements us))) as [s |]; simpl.
  - destruct (String.eqb_spec s EmptyString) as [-> | Hs]; simpl;
      eexists; (split; [reflexivity | right; auto]).
  - eexists. split; [reflexivity | left; auto].
Qed.

(** X23: when the controller leaves and no other session is connected,
    [controllerId] becomes the empty string, [controller_change] with the
    empty string is published, and nothing else of the playback state
    changes. *)
Theorem last_session_leaves (sid : string) (rnd : nat) (w : world) :
  up w = true ->
  controller_sid (state w) = Some sid ->
  users w ∖ {[ sid ]} = ∅ ->
  handle_disconnect sid rnd w
  = (Ok tt,
     mk_world true (apply_hset (state w) (hset_controller_sid EmptyString)) ∅
       (channel w ++ [controller_change EmptyString]) (outbox w)).
Proof.
  intros Hup Hc He.
  destruct (handle_disconnect_controller sid rnd w Hup Hc) as (c & -> & Hm).
  rewrite He in *. destruct Hm as [[-> _] | Hin]; [reflexivity |].
  apply not_elem_of_empty in Hin. contradiction.
Qed.

Lemma last_session_leaves_witness :
  controller_sid (state (snd (handle_disconnect "U1" 2 playing_world))) = Some EmptyString.
Proof.
  rewrite (last_session_leaves "U1" 2 playing_world); [reflexivity | reflexivity | reflexivity |].
  apply set_eq. intros x. rewrite elem_of_difference. simpl.
  rewrite elem_of_empty. tauto.
Defined.

(** X24: a controller that has left commands no more: after its
    disconnect (with the store answering) its play, pause and seek are
    discarded, unless its session id is the empty string. *)
Theorem departed_controller_is_refused
    (sid : string) (rnd : nat) (w : world)
    (c : command) (data : gmap string jval) (now : pyfloat) :
  up w = true ->
  controller_sid (state w) = Some sid ->
  sid <> EmptyString ->
  let w' := snd (handle_disconnect sid rnd w) in
  handle c sid data now w' = (Ok tt, w').
Proof.
  intros Hup Hc Hne.
  destruct (handle_disconnect_controller sid rnd w Hup Hc) as (c' & -> & Hm).
  cbn [snd]. apply handle_refused. simpl. apply bool_decide_eq_false_2.
  intros [= ->]. destruct Hm as [[-> _] | Hin]; [contradiction |].
  apply elem_of_difference in Hin as [_ Hin]. apply Hin, elem_of_singleton. reflexivity.
Qed.

Lemma departed_controller_is_refused_witness :
  handle Play "U1" (time_payload 1%float) 130%float
    (snd (handle_disconnect "U1" 7 three_users))
  = (Ok tt, snd (handle_disconnect "U1" 7 three_users)).
Proof.
  apply (departed_controller_is_refused "U1" 7 three_users Play (time_payload 1%float)
           130%float); [reflexivity | reflexivity | discriminate].
Defined.

(** ** Check and write under interleaving *)

Lemma keeps_controller_serve w r :
  keeps_controller r -> controller_sid (state (serve w r)) = controller_sid (state w).
Proof.
  intros Hr.
  destruct (serve_effect w r) as
    [r b | r sid d | req now sid | sid now d | sid rnd | sid rnd c | c sid data now t];
    simpl in *; try contradiction; reflexivity.
Qed.

Lemma writes_with_authority_inv c sid data now sched : forall cfg,
  Forall keeps_controller (others_of sched) ->
  (fst cfg = at_write -> controller_sid (state (snd cfg)) = Some sid) ->
  writes_with_authority c sid data now sched cfg.
Proof.
  induction sched as [| t sched IH]; intros [p w] Hs Hinv; cbn [writes_with_authority];
    [exact I |].
  split; [intros _; exact Hinv |].
  destruct t as [| r].
  - apply IH; [exact Hs |].
    destruct p as [| | t |].
    + rewrite own_turn_check.
      destruct (up w && bool_decide (controller_sid (state w) = Some sid)) eqn:E;
        [| discriminate].
      intros _. apply andb_true_iff in E as [_ E]. apply bool_decide_eq_true_1 in E.
      exact E.
    + rewrite own_turn_write.
      destruct (py_float (get_time data)); [destruct (up w) |]; discriminate.
    + rewrite own_turn_publish. discriminate.
    + rewrite own_turn_returned. discriminate.
  - cbn [others_of omap] in Hs. inversion Hs as [| r' rs' Hr Hrs]; subst.
    apply IH; [exact Hrs |].
    cbn [take_turn fst snd]. intros Hp.
    rewrite (keeps_controller_serve w r Hr). apply Hinv, Hp.
Qed.

(** The same with an election: [U1] leaves while the handler of its
    [play(30.0)] stands between check and write; [U2] or [U3] is elected,
    and the write of [U1] still lands. *)
Example election_between_check_and_write :
  let sched := [ Own; Other (Disconnect "U1" 7); Own; Own ] in
  let final :=
    snd (run_schedule Play "U1" (time_payload 30%float) 200%float sched
           (at_check, three_users)) in
  ~ writes_with_authority Play "U1" (time_payload 30%float) 200%float sched
      (at_check, three_users)
  /\ state final
     = mk_hash (Some "a.mp4") (Some "1") (Some 30%float) (Some 200%float) (Some "U2").
Proof.
  cbv zeta. split.
  - intros H. cbn [writes_with_authority] in H.
    destruct H as (_ & _ & H & _).
    specialize (H eq_refl). vm_compute in H. specialize (H eq_refl). discriminate.
  - vm_compute. reflexivity.
Qed.

(** C3, amended: for every play, pause or seek command the check of the
    issuer against [controllerId] is one read of the store, and the write
    is a separate, later transaction; the transaction writes all fields of
    the command at once but does not look at [controllerId] again. So, in
    every schedule, a handler whose check fails contributes nothing, and
    one whose check succeeds goes on to write whatever is served in
    between: an upload or an election served between the check and the
    write lets the write land after the issuer has lost the authority.
    When neither an upload nor a disconnect is served in between, and so
    when the handler runs on its own, the issuer is still the controller
    at the write. *)
Theorem C3_check_and_write_are_separate
    (c : command) (sid : string) (data : gmap string jval) (now : pyfloat) (w : world) :
  let authorised := up w && bool_decide (controller_sid (state w) = Some sid) in
  step c sid data now at_check w = (Ok (if authorised then at_write else returned), w)
  /\ step c sid data now at_write w
     = match py_float (get_time data) with
       | Ok t => if up w
                 then (Ok (at_publish t), fold_left apply_pipe_cmd (writes c t now) w)
                 else (Raise RedisError, w)
       | Raise e => (Raise e, w)
       end
  /\ (forall sched,
       run_schedule c sid data now (Own :: sched) (at_check, w)
       = if authorised
         then run_schedule c sid data now sched (at_write, w)
         else (returned, serve_all (others_of sched) w))
  /\ (forall sched,
       Forall keeps_controller (others_of sched) ->
       writes_with_authority c sid data now sched (at_check, w))
  /\ run_schedule c sid data now [Own; Own; Own] (at_check, w)
     = (returned, snd (handle c sid data now w))
  /\ writes_with_authority c sid data now [Own; Own; Own] (at_check, w).
Proof.
  cbv zeta.
  split; [apply step_check |].
  split; [apply step_write |].
  split.
  { intros sched. unfold run_schedule at 1. cbn [fold_left].
    rewrite own_turn_check.
    destruct (up w && bool_decide (controller_sid (state w) = Some sid)).
    - reflexivity.
    - apply returned_run. }
  split.
  { intros sched Hs. apply writes_with_authority_inv; [exact Hs | discriminate]. }
  split; [apply handle_as_steps |].
  apply writes_with_authority_inv; [constructor | discriminate].
Qed.

Lemma C3_check_and_write_are_separate_witness :
  writes_with_authority Seek "U1" (time_payload 30%float) 200%float
    [ Own;
      Other (Command Pause "U2" (time_payload 4%float) 150%float);
      Other (Connect "U3" 151%float);
      Own; Own ]
    (at_check, paused_world).
Proof.
  apply (C3_check_and_write_are_separate Seek "U1" (time_payload 30%float) 200%float
           paused_world).
  cbn [others_of omap]. repeat constructor.
Defined.

(** X25: only an upload or a disconnect served between the check and the
    write of a command can take the authority away from its issuer: in
    every schedule whose other requests are connects, snapshot requests,
    commands and outages, the handler writes only while the issuer is the
    controller. *)
Theorem only_upload_and_disconnect_race
    (c : command) (sid : string) (data : gmap string jval) (now : pyfloat)
    (sched : list turn) (w : world) :
  Forall keeps_controller (others_of sched) ->
  writes_with_authority c sid data now sched (at_check, w).
Proof.
  intros Hs. apply writes_with_authority_inv; [exact Hs | discriminate].
Qed.

Lemma only_upload_and_disconnect_race_witness :
  writes_with_authority Play "U1" (time_payload 30%float) 200%float
    [ Own;
      Other (Command Pause "U2" (time_payload 4%float) 150%float);
      Other (Connect "U3" 151%float);
      Own; Own ]
    (at_check, paused_world).
Proof.
  apply only_upload_and_disconnect_race.
  cbn [others_of omap]. repeat constructor.
Defined.
